(* ===== verification/_CoqProject ===== *)
-Q . S2P
Prelude.v
PyText.v
SpeechGate.v
Controller.v
Daemon.v
Trigger.v
System.v
Concurrency.v
Interleaving.v
Diagnostics.v
