(* ===== verification/Prelude.v ===== *)
(** * TalkType: a verification development of the push-to-talk daemon

    The program (repository Guru227/talktype) is a dictation helper made
    of two Python processes that meet through a PID file:

    - [src/talktype_daemon.py], the daemon.  [main] writes the PID file
      [~/.cache/talktype_daemon.pid], loads the Whisper model and installs
      three signal handlers.  [toggle_recording] (SIGUSR1) drives the
      controller state [state] (IDLE, RECORDING, TRANSCRIBING) under
      [state_lock]: from IDLE it opens and starts a [sounddevice]
      input stream whose [audio_callback] appends blocks to
      [audio_chunks]; from RECORDING it stops the stream, concatenates the
      blocks and starts a background thread running
      [transcribe_and_paste]; in TRANSCRIBING it does nothing.  The thread
      applies the speech gate of [transcribe] (at least
      [SAMPLE_RATE * 0.5] samples and RMS energy above 0.005, see
      [has_speech]), calls Whisper, copies [" " + text] to the clipboard
      ([paste_text]) and, in a [finally], puts [state] back to IDLE.
      [cleanup] (SIGINT, SIGTERM) removes the PID file and exits 0.
    - [src/talktype_toggle.py], the trigger.  [send_signal] reads the PID
      file, parses it with [int(... .strip())] and sends SIGUSR1; a missing
      file or a dead process ends it with status 1 (the stale file is
      removed in the second case).
    - [src/test_mic.py] and [src/test_keyboard.py] are interactive
      diagnostics around the audio and keyboard libraries.

    ** Files (in dependency order)

    - [Prelude.v] (this file): the Python effects every component uses:
      the exceptions the code raises or catches ([pyexc]), a state and
      exception monad [py] whose failed computations keep the state they
      reached (as Python keeps the assignments made before a [raise]),
      with [except E:] ([py_catch]), [except Exception:] and [finally];
      the reflexive transitive closure [star] of a step relation and its
      invariant principle; the hint databases.
    - [PyText.v], Module [PyStr]: [str.strip] over Python's ASCII
      whitespace, [str.join], [str(int)] and [int(str)] in base 10 (sign,
      underscores between digits, surrounding whitespace, [ValueError]).
    - [SpeechGate.v], Modules [Config] and [Gate]: the constants of lines
      21-23 and the guard of [transcribe] with [has_speech].  Samples are
      exact rationals; the executable [has_speech] (mean square against
      the squared threshold) is proved to decide the code's real-valued
      [sqrt(mean(audio ** 2)) > threshold] ([has_speech_R]).
    - [Controller.v], Module [Controller]: the daemon's globals as the
      record [Daemon] and every controller handler ([beep],
      [audio_callback], [start_recording], [stop_recording], [transcribe],
      [paste_text], [transcribe_and_paste], [toggle_recording]) in the
      [py] monad; Whisper and the clipboard behind the [Backend] class,
      the outcome of each PortAudio call as a [DevIO] input; the events
      [Toggle] (SIGUSR1), [Frame] (PortAudio callback) and [Finish] (end
      of a transcription thread) as the step relation [step]; the
      invariant [inv]; the specification's section 4.1 as the executable
      labelled machine [spec_step].  Here each handler is one atomic
      step; [Concurrency.v] and [Interleaving.v] take [state_lock] apart.
    - [Daemon.v], Module [DaemonProc]: the daemon process: [main]'s
      statements in order ([main_pc]), the disposition of each signal at
      each point ([handler_installed]), Python's rule that an exception of
      a signal handler is raised in the main thread (here in the
      [time.sleep] loop, where it ends the process), [cleanup], and the
      PID file in a small file system [FS].
    - [Trigger.v], Module [Trigger]: src/talktype_toggle.py as a script:
      the load-time [mkdir], [send_signal], POSIX [kill] semantics for
      positive, zero, -1 and negative PIDs and the 32-bit [pid_t]
      ([os_kill]), and the script's exit status ([run_trigger]).
    - [System.v], Module [System]: one press of the shortcut
      ([press_toggle]): the trigger run against the daemon process,
      the two programs sharing the PID file.
    - [Concurrency.v], Module [Concurrency]: the lock at a finer grain.
      CPython runs a signal handler in the main thread between two
      bytecodes of whatever it runs, another handler or a blocked
      [state_lock.acquire()] included, so the main thread is a stack of
      [toggle_recording] frames ([frame]: waiting at [with state_lock:],
      inside the critical section, done).  The transcription thread
      ([wpc]) runs [transcribe] without the lock and takes it for its
      [finally].  [cstep] interleaves these steps in every order; each
      critical section is one step with its effect on [state]
      ([toggle_state]) and the thread start.
    - [Interleaving.v], Module [Interleaving]: the interleavings of
      [Concurrency.v] over the real globals: each critical section runs
      [Controller.toggle_recording], the PortAudio thread runs
      [audio_callback] whenever the stream is active, and each
      transcription thread runs the [try]/[except] of
      [transcribe_and_paste] ([transcribe_and_paste_body]) without the
      lock and its [finally] under it.  [run_fevent] is executable and
      [fine_run] replays a schedule.
    - [Diagnostics.v], Modules [Mic] and [Keyboard]: [test_mic.py]'s
      recording length, the three figures it prints and its verdict on
      the peak amplitude ([test_mic]); [test_keyboard.py]'s two callbacks
      and the listener that stops when [on_release] returns [False]
      ([test_keyboard]).

    ** What the theorems show (claim ids of PROJECT.json)

    - Refinement (C1): every event sequence the daemon runs from its
      initial globals is accepted by [spec_step] with the same labels,
      ending in the abstraction of the daemon's state.
    - The state machine (C2-C5, C20): a toggle while TRANSCRIBING changes
      nothing; each step keeps [state] or advances it along the cycle,
      only a thread end returning to IDLE; at most one transcription
      thread lives, exactly while TRANSCRIBING; it can always finish;
      audio is appended only while RECORDING.
    - The transcription thread (C6-C10, C19): short or quiet buffers never
      reach Whisper; loud ones reach it once, whole; success writes
      [" " + text] to the clipboard once (the success cue sounds twice);
      Whisper and clipboard errors are contained and end in IDLE.
    - The process and the PID file (C11, C12, C15-C18, C21): a press
      delivers one SIGUSR1 to the living daemon (the PID round trip
      through [str] and [int]); a device exception in a toggle ends the
      daemon with status 1 and a stale PID file (C12), as does a toggle
      while the model loads (C18); a failing [stream.stop()] leaves
      [state] at TRANSCRIBING (C21); the next press removes a stale file
      (C15); the file names the daemon until [cleanup] removes it.
    - The trigger (C13, C14, C29, C30): no file or a dead PID gives
      status 1 (the stale file removed); a malformed, overflowing or
      foreign PID escapes as an exception; no PID of 0 or below is ever
      refused: it is signalled as the trigger's own group (killing the
      trigger), every process, or the group [-p].
    - The lock (C22-C25): a second SIGUSR1 handled while the first
      handler holds the non-reentrant [state_lock] deadlocks the daemon
      for good (C22); otherwise the lock excludes (C23), a transcription
      thread is started only when none lives (C24), and without nested
      handlers every live frame or thread can step (C25).  With the
      real handlers run in the critical sections, every interleaving is
      accepted by [spec_step] (C26), and at most one transcription
      thread lives, the stream being active exactly while RECORDING (C27).
    - The gate (C28): [transcribe] rejects exactly the buffers shorter
      than 8000 samples or of RMS energy at most 0.005, the threshold
      itself included.  The lemma [has_speech_correct] shows that the
      rational [has_speech] decides the real-valued test it stands for.
    - The diagnostics (C31-C35): the printed mean, RMS and maximum are
      ordered; a take the microphone test calls very low is always
      rejected by the daemon's gate, while its other two verdicts predict
      nothing about the gate (C33, C34); the keyboard test echoes events
      up to the first release of Esc and stops there.

    ** Fuel and bounds

    [PyStr.digits_of] divides by ten at most [digits_fuel n = 1 + log2 n]
    times, one division per bit, never fewer than the number of decimal
    digits ([digits_of_spec]).  Every other function is structurally
    recursive; handlers are straight-line code.  PIDs are integers
    checked against the 32-bit [pid_t] range where [os.kill] checks them.
    Witnesses use buffers of 8000, 40000 and 48000 (the microphone
    test's 3 s) exact samples, evaluated by [vm_compute].  [Concurrency.v]
    puts no bound on the nesting of handler frames: the deadlock theorem
    holds for every number of later presses.

    ** Not modelled

    Console output ([print]), the audio signal processing of the
    libraries (PortAudio, the Whisper network, tone synthesis in [beep]
    beyond the frequency and duration of each cue), floating-point
    rounding of the numpy reductions (samples are exact rationals),
    non-ASCII text, and PID reuse by the operating system (the process
    table is an input). *)

From Stdlib Require Import List String ZArith Lia.
Import ListNotations.

Create HintDb talktype discriminated.
Create Rewrite HintDb talktype_rw.

(** ** Python exceptions *)

(** The exceptions the modelled code raises, propagates or catches. *)
Inductive pyexc : Type :=
| PortAudioError          (** [sd.InputStream], [start], [stop], [close] *)
| TranscribeError         (** anything raised inside [whisper_model.transcribe] *)
| PyperclipException      (** [pyperclip.copy] without a copy mechanism *)
| ValueError              (** [int(...)] on a malformed string *)
| ProcessLookupError      (** [os.kill] on a dead PID *)
| PermissionError         (** [os.kill] on a PID of another user *)
| OverflowError           (** [os.kill] on a PID outside [pid_t] *)
| SystemExit (code : Z)   (** [sys.exit(code)] *)
| KeyboardInterrupt.      (** default SIGINT handler *)

(** [except Exception] catches everything but the two [BaseException]s. *)
Definition is_Exception (e : pyexc) : bool :=
  match e with
  | SystemExit _ | KeyboardInterrupt => false
  | _ => true
  end.

(** ** The [py] monad: state passing with exceptions *)

Inductive outcome (A : Type) : Type :=
| Ok (a : A)
| Exc (e : pyexc).
Arguments Ok {A} a.
Arguments Exc {A} e.

(** A computation maps a state to its result and the state it reached;
    an exception keeps the state reached at the point of the [raise]. *)
Definition py (S A : Type) : Type := S -> outcome A * S.

Section PyMonad.
Context {S : Type}.

Definition py_ret {A} (a : A) : py S A := fun s => (Ok a, s).

Definition py_bind {A B} (m : py S A) (k : A -> py S B) : py S B :=
  fun s =>
    match m s with
    | (Ok a, s') => k a s'
    | (Exc e, s') => (Exc e, s')
    end.

Definition py_raise {A} (e : pyexc) : py S A := fun s => (Exc e, s).

Definition py_gets {A} (f : S -> A) : py S A := fun s => (Ok (f s), s).

Definition py_modify (f : S -> S) : py S unit := fun s => (Ok tt, f s).

(** [try: body  except E: handler], for the exceptions [E] selects. *)
Definition py_catch {A} (E : pyexc -> bool) (body : py S A)
           (handler : pyexc -> py S A) : py S A :=
  fun s =>
    match body s with
    | (Exc e, s') => if E e then handler e s' else (Exc e, s')
    | r => r
    end.

(** [try: body  except Exception: handler] *)
Definition py_try_except {A} (body : py S A) (handler : pyexc -> py S A)
  : py S A :=
  py_catch is_Exception body handler.

(** [try: body  finally: fin]; an exception of [fin] replaces the
    body's result. *)
Definition py_try_finally {A} (body : py S A) (fin : py S unit) : py S A :=
  fun s =>
    let (r, s') := body s in
    match fin s' with
    | (Ok _, s'') => (r, s'')
    | (Exc e, s'') => (Exc e, s'')
    end.

Lemma py_bind_Ok {A B} (m : py S A) (k : A -> py S B) s a s' :
  m s = (Ok a, s') -> py_bind m k s = k a s'.
Proof. intros H. unfold py_bind. now rewrite H. Qed.

Lemma py_bind_Exc {A B} (m : py S A) (k : A -> py S B) s e s' :
  m s = (Exc e, s') -> py_bind m k s = (Exc e, s').
Proof. intros H. unfold py_bind. now rewrite H. Qed.

Lemma py_bind_ret_l {A B} (a : A) (k : A -> py S B) s :
  py_bind (py_ret a) k s = k a s.
Proof. reflexivity. Qed.

Lemma py_bind_assoc {A B C} (m : py S A) (k : A -> py S B) (h : B -> py S C) s :
  py_bind (py_bind m k) h s = py_bind m (fun a => py_bind (k a) h) s.
Proof. unfold py_bind. destruct (m s) as [[a|e] s']; reflexivity. Qed.

(** A body that ends in [Ok] or in an [Exception] caught by a handler
    that cannot raise is itself unable to raise. *)
Lemma py_try_except_total {A} (body : py S A) (handler : pyexc -> py S A)
      (Hh : forall e s, exists a s', handler e s = (Ok a, s')) s :
  (forall e s', body s = (Exc e, s') -> is_Exception e = true) ->
  exists a s', py_try_except body handler s = (Ok a, s').
Proof.
  intros Hb. unfold py_try_except, py_catch.
  destruct (body s) as [[a|e] s'] eqn:E; eauto.
  rewrite (Hb e s' eq_refl). apply Hh.
Qed.
End PyMonad.

Arguments py_ret {S A} a _.
Arguments py_raise {S A} e _.

Declare Scope py_scope.
Delimit Scope py_scope with py.
Notation "x <- c ;; k" := (py_bind c (fun x => k))
  (at level 61, c at next level, right associativity) : py_scope.
Notation "c ;; k" := (py_bind c (fun _ => k))
  (at level 61, right associativity) : py_scope.

#[export] Hint Rewrite @py_bind_ret_l @py_bind_assoc : talktype_rw.

(** Unfold the monad's plumbing and reduce. *)
Ltac py_simpl :=
  unfold py_try_finally, py_try_except, py_catch, py_bind, py_ret, py_raise,
    py_gets, py_modify in *; cbv beta in *.

(** ** Reflexive transitive closure of a step relation *)

Section Star.
Context {A : Type} (R : A -> A -> Prop).

Inductive star : A -> A -> Prop :=
| star_refl a : star a a
| star_step a b c : R a b -> star b c -> star a c.

Lemma star_one a b : R a b -> star a b.
Proof. eauto using star. Qed.

Lemma star_trans a b c : star a b -> star b c -> star a c.
Proof. induction 1; eauto using star. Qed.

Lemma star_right a b c : star a b -> R b c -> star a c.
Proof. eauto using star_trans, star_one. Qed.

(** A property preserved by every step holds along every run. *)
Lemma star_invariant (P : A -> Prop) :
  (forall a b, P a -> R a b -> P b) -> forall a b, star a b -> P a -> P b.
Proof. intros Hpres a b Hs. induction Hs; eauto. Qed.
End Star.

#[export] Hint Constructors star : talktype.
#[export] Hint Resolve star_one star_trans star_right : talktype.

(** ** Shared list lemmas *)

Lemma app_cons_not_nil {A} (l : list A) (x : A) : l ++ [x] <> [].
Proof. destruct l; discriminate. Qed.

#[export] Hint Resolve app_cons_not_nil : talktype.
