(* ===== verification/PyText.v ===== *)
(** * Python text operations used by the daemon and the trigger

    [str.strip] (ASCII whitespace as [str.isspace] defines it),
    [str.join], [str(n)] for an [int] and [int(s)] in base 10, as the
    CPython builtins behave on ASCII strings.  [int] raises
    [ValueError] on a malformed string; the result is an [outcome].

    The daemon writes its PID with [PID_FILE.write_text(str(os.getpid()))]
    (src/talktype_daemon.py:153) and the trigger reads it back with
    [int(daemon_pid_file.read_text().strip())] (src/talktype_toggle.py:23);
    [transcribe] normalises Whisper's segments with
    [" ".join(...).strip()] (src/talktype_daemon.py:93). *)

From Stdlib Require Import List String Ascii ZArith Lia.
From S2P Require Import Prelude.
Import ListNotations.

Module PyStr.

Local Open Scope Z_scope.

(** ** Characters *)

(** [c.isspace()] on ASCII: [\t \n \v \f \r], the separators
    [\x1c]-[\x1f], and the space. *)
Definition is_space (c : ascii) : bool :=
  let n := nat_of_ascii c in
  ((9 <=? n)%nat && (n <=? 13)%nat) || ((28 <=? n)%nat && (n <=? 32)%nat).

Definition is_digit (c : ascii) : bool :=
  let n := nat_of_ascii c in (48 <=? n)%nat && (n <=? 57)%nat.

Definition digit_val (c : ascii) : Z := Z.of_nat (nat_of_ascii c) - 48.

Definition digit_char (d : Z) : ascii := ascii_of_nat (Z.to_nat (d + 48)).

(** ** [str.strip] and [str.join] *)

Fixpoint lstrip (s : string) : string :=
  match s with
  | EmptyString => EmptyString
  | String c r => if is_space c then lstrip r else s
  end.

Fixpoint rstrip (s : string) : string :=
  match s with
  | EmptyString => EmptyString
  | String c r =>
      let r' := rstrip r in
      match r' with
      | EmptyString => if is_space c then EmptyString else String c EmptyString
      | _ => String c r'
      end
  end.

Definition strip (s : string) : string := rstrip (lstrip s).

(** [sep.join(parts)] *)
Fixpoint join (sep : string) (parts : list string) : string :=
  match parts with
  | [] => EmptyString
  | [x] => x
  | x :: rest => (x ++ sep ++ join sep rest)%string
  end.

(** ** [int(s)] in base 10 *)

(** Digits after the first one: each may be preceded by one underscore. *)
Fixpoint digits_from (s : string) (acc : Z) : option Z :=
  match s with
  | EmptyString => Some acc
  | String c r =>
      if is_digit c then digits_from r (acc * 10 + digit_val c)
      else if Ascii.eqb c "_"%char then
        match r with
        | String d r' =>
            if is_digit d then digits_from r' (acc * 10 + digit_val d) else None
        | EmptyString => None
        end
      else None
  end.

Definition parse_unsigned (s : string) : option Z :=
  match s with
  | String d r => if is_digit d then digits_from r (digit_val d) else None
  | EmptyString => None
  end.

Definition of_option {A} (o : option A) : outcome A :=
  match o with
  | Some a => Ok a
  | None => Exc ValueError
  end.

(** [int(s)]: surrounding whitespace, an optional sign, then digits. *)
Definition int_of_string (s : string) : outcome Z :=
  match strip s with
  | String c r =>
      if Ascii.eqb c "-"%char then of_option (option_map Z.opp (parse_unsigned r))
      else if Ascii.eqb c "+"%char then of_option (parse_unsigned r)
      else of_option (parse_unsigned (String c r))
  | EmptyString => Exc ValueError
  end.

(** ** [str(n)] *)

(** Decimal digits of [n >= 0], most significant first; [fuel] bounds
    the number of divisions by ten. *)
Fixpoint digits_of (fuel : nat) (n : Z) : list Z :=
  match fuel with
  | O => [n]
  | S f => if n <? 10 then [n] else digits_of f (n / 10) ++ [n mod 10]
  end.

(** One division per bit is more than one per decimal digit. *)
Definition digits_fuel (n : Z) : nat := S (Z.to_nat (Z.log2 n)).

Definition str_of_nonneg (n : Z) : string :=
  string_of_list_ascii (map digit_char (digits_of (digits_fuel n) n)).

Definition str_of_Z (n : Z) : string :=
  if n <? 0 then String "-" (str_of_nonneg (- n)) else str_of_nonneg n.

(** ** Lemmas *)

Definition digit_ok (d : Z) : Prop := 0 <= d < 10.

Definition decimal_value (ds : list Z) (acc : Z) : Z :=
  fold_left (fun a d => a * 10 + d) ds acc.

Lemma digit_char_spec d :
  digit_ok d -> is_digit (digit_char d) = true /\ digit_val (digit_char d) = d
                /\ is_space (digit_char d) = false.
Proof.
  unfold digit_ok; intros Hd.
  assert (d = 0 \/ d = 1 \/ d = 2 \/ d = 3 \/ d = 4 \/ d = 5 \/ d = 6 \/ d = 7
          \/ d = 8 \/ d = 9) as Hc by lia.
  repeat destruct Hc as [-> | Hc]; subst; vm_compute; auto.
Qed.

Lemma digits_from_digits ds acc :
  Forall digit_ok ds ->
  digits_from (string_of_list_ascii (map digit_char ds)) acc
  = Some (decimal_value ds acc).
Proof.
  revert acc; induction ds as [|d ds IH]; intros acc Hall; [reflexivity|].
  inversion Hall as [|? ? Hd Hds]; subst.
  destruct (digit_char_spec d Hd) as (Hdig & Hval & _).
  cbn [map string_of_list_ascii digits_from]. rewrite Hdig, Hval.
  apply IH; assumption.
Qed.

Lemma log2_div10_lt n : 10 <= n -> Z.log2 (n / 10) < Z.log2 n.
Proof.
  intros Hn.
  assert (Hpos : 0 < n / 10) by (apply Z.div_str_pos; lia).
  assert (Hle : 2 * (n / 10) <= n).
  { pose proof (Z.mul_div_le n 10 ltac:(lia)). lia. }
  pose proof (Z.log2_double (n / 10) Hpos).
  pose proof (Z.log2_le_mono _ _ Hle). lia.
Qed.

Lemma digits_of_spec fuel n :
  0 <= n -> (Z.to_nat (Z.log2 n) < fuel)%nat ->
  Forall digit_ok (digits_of fuel n) /\ decimal_value (digits_of fuel n) 0 = n.
Proof.
  revert n; induction fuel as [|f IH]; intros n Hn Hf; [lia|].
  cbn [digits_of]. destruct (Z.ltb_spec n 10) as [Hlt|Hge].
  - split; [constructor; [unfold digit_ok; lia | constructor] | reflexivity].
  - pose proof (log2_div10_lt n Hge) as Hlog.
    pose proof (Z.log2_nonneg (n / 10)).
    destruct (IH (n / 10)) as [Hok Hval]; [apply Z.div_pos; lia | lia |].
    split.
    + apply Forall_app; split; [exact Hok|].
      constructor; [unfold digit_ok; apply Z.mod_pos_bound; lia | constructor].
    + unfold decimal_value in *. rewrite fold_left_app, Hval. cbn.
      pose proof (Z.div_mod n 10 ltac:(lia)). lia.
Qed.

Lemma str_of_nonneg_digits n :
  0 <= n -> exists ds, Forall digit_ok ds /\ ds <> [] /\ decimal_value ds 0 = n
                /\ str_of_nonneg n = string_of_list_ascii (map digit_char ds).
Proof.
  intros Hn. exists (digits_of (digits_fuel n) n).
  destruct (digits_of_spec (digits_fuel n) n Hn) as [Hok Hval];
    [unfold digits_fuel; lia|].
  repeat split; auto.
  unfold digits_fuel; cbn [digits_of]. destruct (n <? 10);
    [discriminate | apply app_cons_not_nil].
Qed.

Lemma no_space_digits ds :
  Forall digit_ok ds ->
  Forall (fun c => is_space c = false) (map digit_char ds).
Proof.
  intros H. apply Forall_map. eapply Forall_impl; [|exact H].
  intros d Hd. apply (digit_char_spec d Hd).
Qed.

Lemma lstrip_no_space s :
  Forall (fun c => is_space c = false) (list_ascii_of_string s) -> lstrip s = s.
Proof.
  destruct s as [|c r]; intros H; [reflexivity|].
  inversion H; subst. cbn. now rewrite H2.
Qed.

Lemma rstrip_no_space s :
  Forall (fun c => is_space c = false) (list_ascii_of_string s) -> rstrip s = s.
Proof.
  induction s as [|c r IH]; intros H; [reflexivity|].
  inversion H as [|? ? Hc Hr]; subst. cbn. rewrite (IH Hr).
  destruct r; [now rewrite Hc | reflexivity].
Qed.

Lemma strip_no_space s :
  Forall (fun c => is_space c = false) (list_ascii_of_string s) -> strip s = s.
Proof.
  intros H. unfold strip. rewrite (lstrip_no_space s H). now apply rstrip_no_space.
Qed.

Lemma of_string_of_list_ascii_map ds :
  list_ascii_of_string (string_of_list_ascii (map digit_char ds)) = map digit_char ds.
Proof. apply list_ascii_of_string_of_list_ascii. Qed.

Lemma parse_unsigned_digits ds :
  Forall digit_ok ds -> ds <> [] ->
  parse_unsigned (string_of_list_ascii (map digit_char ds)) = Some (decimal_value ds 0).
Proof.
  intros Hall Hne. destruct ds as [|d ds]; [congruence|].
  inversion Hall as [|? ? Hd Hds]; subst.
  destruct (digit_char_spec d Hd) as (Hdig & Hval & _).
  cbn [map string_of_list_ascii parse_unsigned]. rewrite Hdig, Hval.
  rewrite digits_from_digits by exact Hds. reflexivity.
Qed.

Lemma digit_not_sign c :
  is_digit c = true -> Ascii.eqb c "-"%char = false /\ Ascii.eqb c "+"%char = false.
Proof.
  intros H. split; match goal with |- Ascii.eqb c ?k = false =>
    destruct (Ascii.eqb_spec c k) as [->|]; [discriminate | reflexivity] end.
Qed.

Lemma str_of_nonneg_no_space n :
  0 <= n -> Forall (fun c => is_space c = false) (list_ascii_of_string (str_of_nonneg n)).
Proof.
  intros Hn. destruct (str_of_nonneg_digits n Hn) as (ds & Hok & _ & _ & ->).
  rewrite of_string_of_list_ascii_map. now apply no_space_digits.
Qed.

Lemma str_of_Z_no_space n :
  Forall (fun c => is_space c = false) (list_ascii_of_string (str_of_Z n)).
Proof.
  unfold str_of_Z. destruct (Z.ltb_spec n 0).
  - constructor; [reflexivity | apply str_of_nonneg_no_space; lia].
  - apply str_of_nonneg_no_space; lia.
Qed.

(** Round trip of the PID file: [int(str(n).strip()) == n] for every
    integer [n]. *)


Theorem int_of_str_roundtrip n : int_of_string (strip (str_of_Z n)) = Ok n.
Proof.
  rewrite (strip_no_space _ (str_of_Z_no_space n)). unfold str_of_Z, int_of_string.
  destruct (Z.ltb_spec n 0) as [Hneg|Hnn].
  - rewrite strip_no_space
      by (constructor; [reflexivity | apply str_of_nonneg_no_space; lia]).
    cbn [Ascii.eqb]. simpl (Ascii.eqb "-" "-").
    destruct (str_of_nonneg_digits (- n) ltac:(lia)) as (ds & Hok & Hne & Hval & ->).
    rewrite parse_unsigned_digits by assumption. cbn. f_equal. lia.
  - rewrite strip_no_space by (apply str_of_nonneg_no_space; lia).
    destruct (str_of_nonneg_digits n Hnn) as (ds & Hok & Hne & Hval & ->).
    destruct ds as [|d ds']; [congruence|].
    pose proof (parse_unsigned_digits (d :: ds') Hok Hne) as Hp.
    inversion Hok as [|? ? Hd _]; subst.
    destruct (digit_not_sign (digit_char d)) as [Hm Hpl];
      [apply (digit_char_spec d Hd)|].
    cbn [map string_of_list_ascii] in *. rewrite Hm, Hpl, Hp. reflexivity.
Qed.

(** [int] raises nothing but [ValueError]. *)
Lemma int_of_string_error s e : int_of_string s = Exc e -> e = ValueError.
Proof.
  unfold int_of_string, of_option.
  destruct (strip s) as [|c r]; [congruence|].
  destruct (Ascii.eqb c "-"%char); [destruct (option_map Z.opp (parse_unsigned r)) |
    destruct (Ascii.eqb c "+"%char); [destruct (parse_unsigned r) | destruct (parse_unsigned (String c r))]];
    congruence.
Qed.

Local Open Scope string_scope.

Example int_of_string_examples :
  int_of_string (String "010"%char " 4242 ") = Ok 4242 /\ int_of_string "1_000" = Ok 1000
  /\ int_of_string "-7" = Ok (-7) /\ int_of_string "+7" = Ok 7
  /\ int_of_string "1__0" = Exc ValueError /\ int_of_string "_1" = Exc ValueError
  /\ int_of_string "1_" = Exc ValueError /\ int_of_string "" = Exc ValueError
  /\ int_of_string "- 1" = Exc ValueError /\ str_of_Z 4242 = "4242"
  /\ str_of_Z 0 = "0" /\ str_of_Z (-15) = "-15".
Proof. vm_compute. repeat split. Qed.

End PyStr.
