(* ===== verification/SpeechGate.v ===== *)
(** * Configuration constants and the speech gate

    The constants of src/talktype_daemon.py (lines 21-25) and the speech
    gate that [transcribe] applies before it calls Whisper (lines 80-89):
    a buffer is rejected when it holds fewer than [SAMPLE_RATE * 0.5]
    samples or when [has_speech] finds its RMS energy not above 0.005.

    Samples are exact rationals.  The code computes
    [np.sqrt(np.mean(audio ** 2)) > threshold]; [energy] and
    [has_speech_R] state that test over the Standard Library's reals,
    and the executable [has_speech] decides it without a square root
    (theorem [has_speech_correct]).  Float32 rounding is not modelled. *)

From Stdlib Require Import List String ZArith QArith Qreals Reals Lra Lia Psatz.
From S2P Require Import Prelude.
Import ListNotations.

Module Config.
(** [SAMPLE_RATE = 16000], [LANGUAGE = "en"], [MODEL = "tiny"] *)
Definition SAMPLE_RATE : Z := 16000.
Definition LANGUAGE : string := "en".
Definition MODEL : string := "tiny".
End Config.

Module Gate.

Local Open Scope Q_scope.

(** [audio ** 2] summed *)
Definition sum_sq (audio : list Q) : Q :=
  fold_right (fun x acc => x * x + acc) 0 audio.

(** [np.mean(audio ** 2)] for a non-empty buffer *)
Definition mean_sq (audio : list Q) : Q :=
  sum_sq audio / inject_Z (Z.of_nat (List.length audio)).

(** [energy = np.sqrt(np.mean(audio ** 2))] *)
Definition energy (audio : list Q) : R := sqrt (Q2R (mean_sq audio)).

(** [energy > threshold] as the code evaluates it: numpy's mean of an
    empty array is [nan], and [nan > threshold] is [False]. *)
Definition has_speech_R (audio : list Q) (threshold : Q) : Prop :=
  audio <> [] /\ (Q2R threshold < energy audio)%R.

(** The default [threshold=0.005] of [has_speech]. *)
Definition SPEECH_THRESHOLD : Q := 5 # 1000.

(** [has_speech(audio, threshold)], decided on rationals: for a
    non-negative threshold, [sqrt m > t] iff [m > t * t]. *)
Definition has_speech (audio : list Q) (threshold : Q) : bool :=
  match audio with
  | [] => false
  | _ :: _ =>
      if Qle_bool 0 threshold
      then negb (Qle_bool (mean_sq audio) (threshold * threshold))
      else true
  end.

(** [len(audio) < SAMPLE_RATE * 0.5] *)
Definition too_short (audio : list Q) : bool :=
  negb (Qle_bool (inject_Z Config.SAMPLE_RATE * (1 # 2))
                 (inject_Z (Z.of_nat (List.length audio)))).

(** The guard of [transcribe]:
    [if len(audio) < SAMPLE_RATE * 0.5 or not has_speech(audio): return ""]
    ([or] short-circuits: [has_speech] only sees buffers long enough). *)
Definition rejects (audio : list Q) : bool :=
  too_short audio || negb (has_speech audio SPEECH_THRESHOLD).

(** ** Lemmas *)

Lemma sum_sq_nonneg audio : 0 <= sum_sq audio.
Proof.
  induction audio as [|x rest IH]; cbn [sum_sq fold_right]; [lra|].
  fold (sum_sq rest). nra.
Qed.

Lemma mean_sq_nonneg audio : 0 <= mean_sq audio.
Proof.
  unfold mean_sq. destruct audio as [|x rest]; [unfold Qle; cbn; lia|].
  apply Qle_shift_div_l.
  - unfold Qlt; cbn. lia.
  - rewrite Qmult_0_l. apply sum_sq_nonneg.
Qed.

Lemma Qle_bool_false x y : Qle_bool x y = false <-> y < x.
Proof.
  split; intros H.
  - apply Qnot_le_lt. intros Hle. apply Qle_bool_iff in Hle. congruence.
  - destruct (Qle_bool x y) eqn:E; [|reflexivity].
    apply Qle_bool_iff in E. exfalso. apply (Qlt_not_le _ _ H E).
Qed.

(** For [t >= 0] and [m >= 0], [t < sqrt m] iff [t * t < m]. *)
Lemma lt_sqrt_iff (t m : R) :
  (0 <= t)%R -> (0 <= m)%R -> (t < sqrt m <-> t * t < m)%R.
Proof.
  intros Ht Hm. split; intros H.
  - pose proof (sqrt_sqrt m Hm). pose proof (sqrt_pos m). nra.
  - rewrite <- (sqrt_square t Ht). apply sqrt_lt_1; nra.
Qed.

(** On a non-empty buffer the executable test is the real-valued one. *)
Lemma has_speech_nonempty audio threshold :
  audio <> [] ->
  has_speech audio threshold = true <-> (Q2R threshold < energy audio)%R.
Proof.
  intros Hne. unfold has_speech, energy.
  destruct audio as [|x rest] eqn:Ea; [congruence|]. rewrite <- Ea.
  pose proof (mean_sq_nonneg audio) as Hm.
  apply Qle_Rle in Hm. rewrite RMicromega.Q2R_0 in Hm.
  destruct (Qle_bool 0 threshold) eqn:Ht.
  - apply Qle_bool_iff, Qle_Rle in Ht. rewrite RMicromega.Q2R_0 in Ht.
    rewrite Bool.negb_true_iff, Qle_bool_false, lt_sqrt_iff by assumption.
    rewrite <- Q2R_mult. split; [apply Qlt_Rlt | apply Rlt_Qlt].
  - apply Qle_bool_false, Qlt_Rlt in Ht. rewrite RMicromega.Q2R_0 in Ht.
    pose proof (sqrt_pos (Q2R (mean_sq audio))). split; [lra | reflexivity].
Qed.

(** The executable test decides the real-valued test
    [np.sqrt(np.mean(audio ** 2)) > threshold] it stands for, empty
    buffers (a [nan] energy) included: the adequacy of [has_speech]. *)
Theorem has_speech_correct audio threshold :
  has_speech audio threshold = true <-> has_speech_R audio threshold.
Proof.
  unfold has_speech_R. destruct audio as [|x rest].
  - split; [discriminate | intros [H _]; congruence].
  - rewrite has_speech_nonempty by discriminate. intuition discriminate.
Qed.

(** The length guard rejects exactly the buffers of fewer than 8000
    samples (half a second at 16 kHz). *)
Theorem too_short_iff audio :
  too_short audio = true <-> (Z.of_nat (List.length audio) < 8000)%Z.
Proof.
  unfold too_short. rewrite Bool.negb_true_iff, Qle_bool_false.
  unfold Qlt; cbn. lia.
Qed.

(** The guard of [transcribe] rejects a buffer exactly when it is
    shorter than half a second or its RMS energy is not above 0.005. *)
Theorem rejects_iff audio :
  rejects audio = true <->
  (Z.of_nat (List.length audio) < 8000)%Z \/ ~ has_speech_R audio SPEECH_THRESHOLD.
Proof.
  unfold rejects, has_speech_R.
  rewrite Bool.orb_true_iff, too_short_iff, Bool.negb_true_iff.
  destruct audio as [|x rest]; [cbn; lia|].
  rewrite <- (has_speech_nonempty (x :: rest)) by discriminate.
  destruct (has_speech (x :: rest) SPEECH_THRESHOLD); intuition congruence.
Qed.

Lemma rejects_false audio :
  (8000 <= Z.of_nat (List.length audio))%Z -> has_speech_R audio SPEECH_THRESHOLD ->
  rejects audio = false.
Proof.
  intros Hlen Hs. destruct (rejects audio) eqn:E; [|reflexivity].
  apply rejects_iff in E. destruct E; [lia | contradiction].
Qed.

Lemma has_speech_R_of_true audio threshold :
  has_speech audio threshold = true -> has_speech_R audio threshold.
Proof.
  intros H. destruct audio as [|x rest]; [discriminate|].
  split; [discriminate | now apply has_speech_nonempty].
Qed.

Lemma not_has_speech_R_of_false audio threshold :
  has_speech audio threshold = false -> ~ has_speech_R audio threshold.
Proof.
  intros H [Hne Hlt]. apply has_speech_nonempty in Hlt; [congruence | exact Hne].
Qed.

(** C28: The guard of [transcribe] rejects a buffer exactly when it
    holds fewer than 8000 samples or its RMS energy is at most 0.005:
    [has_speech] compares with a strict [>], so a buffer whose energy is
    exactly the threshold is rejected as silence (the specification
    leaves this case open). *)
Theorem gate_rejects_iff_energy audio :
  rejects audio = true <->
  (Z.of_nat (List.length audio) < 8000)%Z \/ (energy audio <= Q2R SPEECH_THRESHOLD)%R.
Proof.
  rewrite rejects_iff. unfold has_speech_R.
  destruct audio as [|x rest]; [cbn; split; intros _; left; lia|].
  split; intros [H|H]; auto; right.
  - apply Rnot_lt_le. intros Hl. apply H. split; [discriminate | exact Hl].
  - intros [_ Hl]. lra.
Qed.

(** One full-scale sample among 40000: RMS energy [sqrt(1/40000) = 0.005]. *)
Definition boundary_buffer : list Q := 1 :: repeat 0 (Z.to_nat 39999).

Lemma boundary_energy : energy boundary_buffer = Q2R SPEECH_THRESHOLD.
Proof.
  unfold energy. apply sqrt_lem_1.
  - apply Rle_trans with (Q2R 0); [rewrite RMicromega.Q2R_0; lra | apply Qle_Rle].
    apply mean_sq_nonneg.
  - unfold Q2R, SPEECH_THRESHOLD. cbn. lra.
  - rewrite <- Q2R_mult. apply Qeq_eqR. vm_compute. reflexivity.
Qed.

Lemma gate_rejects_iff_energy_witness :
  (40000 <= Z.of_nat (List.length boundary_buffer))%Z
  /\ energy boundary_buffer = Q2R SPEECH_THRESHOLD /\ rejects boundary_buffer = true.
Proof.
  split; [vm_compute; discriminate|]. split; [exact boundary_energy|].
  apply (gate_rejects_iff_energy boundary_buffer). right.
  rewrite boundary_energy. apply Rle_refl.
Defined.

End Gate.
