(* ===== verification/Controller.v ===== *)
(** * The recording controller of the daemon

    The globals of src/talktype_daemon.py (lines 27-37) as the record
    [Daemon], and its handlers in the [py] monad of the prelude:
    [beep], [audio_callback], [start_recording], [stop_recording],
    [transcribe], [paste_text], [transcribe_and_paste] and
    [toggle_recording].  Whisper and the clipboard are the [Backend]
    class; the outcome of each PortAudio call made by one toggle is the
    record [DevIO].

    The daemon's life between signals is the labelled step relation
    [step]: a toggle ([Toggle]), a block delivered by the PortAudio
    callback while the stream is active ([Frame]), and a live
    transcription thread running [transcribe_and_paste] to its end
    ([Finish]).  [toggle_recording] runs under [state_lock], so each
    handler is one atomic step; the thread touches [state] only in its
    [finally], under the same lock.  A toggle that raises is not a step:
    its exception ends the process, as [Daemon.v] models. *)

From Stdlib Require Import List String ZArith QArith Lia.
From S2P Require Import Prelude PyText SpeechGate.
Import ListNotations.

Module Controller.

(** ** Data *)

(** [class State: IDLE = 0; RECORDING = 1; TRANSCRIBING = 2] *)
Inductive State : Type := IDLE | RECORDING | TRANSCRIBING.

Definition state_value (s : State) : Z :=
  match s with IDLE => 0 | RECORDING => 1 | TRANSCRIBING => 2 end.

Definition State_eq_dec (a b : State) : {a = b} + {a <> b}.
Proof. decide equality. Defined.

(** The object bound to [stream] when it is not [None]: an
    [sd.InputStream] that has been started or not (a stopped stream is
    inactive again). *)
Inductive stream_status : Type := Inactive | Active.

(** One [beep(freq, duration)] cue. *)
Record cue : Type := Cue { cue_freq : Z; cue_duration : Q }.

(** The module globals, and the effects visible outside the process. *)
Record Daemon : Type := mkDaemon {
  state : State;                       (** [state] *)
  audio_chunks : list (list Q);        (** [audio_chunks] *)
  stream : option stream_status;       (** [stream] *)
  threads : list (list Q);             (** live [transcribe_and_paste] threads, by argument *)
  cues : list cue;                     (** cues played, in order *)
  clipboard : list string;             (** successful [pyperclip.copy] calls, in order *)
  whisper_calls : list (list Q)        (** [whisper_model.transcribe] calls, by argument *)
}.

(** [state = State.IDLE], [audio_chunks = []], [stream = None] *)
Definition initial : Daemon := mkDaemon IDLE [] None [] [] [] [].

Definition set_state (s : State) (d : Daemon) : Daemon :=
  mkDaemon s (audio_chunks d) (stream d) (threads d) (cues d) (clipboard d)
           (whisper_calls d).
Definition set_chunks (c : list (list Q)) (d : Daemon) : Daemon :=
  mkDaemon (state d) c (stream d) (threads d) (cues d) (clipboard d)
           (whisper_calls d).
Definition set_stream (s : option stream_status) (d : Daemon) : Daemon :=
  mkDaemon (state d) (audio_chunks d) s (threads d) (cues d) (clipboard d)
           (whisper_calls d).
Definition set_threads (t : list (list Q)) (d : Daemon) : Daemon :=
  mkDaemon (state d) (audio_chunks d) (stream d) t (cues d) (clipboard d)
           (whisper_calls d).
Definition add_cue (c : cue) (d : Daemon) : Daemon :=
  mkDaemon (state d) (audio_chunks d) (stream d) (threads d) (cues d ++ [c])
           (clipboard d) (whisper_calls d).
Definition add_clipboard (t : string) (d : Daemon) : Daemon :=
  mkDaemon (state d) (audio_chunks d) (stream d) (threads d) (cues d)
           (clipboard d ++ [t]) (whisper_calls d).
Definition add_whisper_call (a : list Q) (d : Daemon) : Daemon :=
  mkDaemon (state d) (audio_chunks d) (stream d) (threads d) (cues d)
           (clipboard d) (whisper_calls d ++ [a]).

(** ** External services *)

(** What the code asks of its libraries: Whisper returns the segment
    texts or raises an [Exception] ([None]); [pyperclip.copy] succeeds
    or raises [PyperclipException]. *)
Class Backend : Type := {
  whisper_transcribe : list Q -> string -> option (list string);
  pyperclip_copy_ok : string -> bool
}.

(** The outcome of each PortAudio call of one handler:
    [sd.InputStream(...)], [stream.start()], [stream.stop()],
    [stream.close()]. *)
Record DevIO : Type := { open_ok : bool; start_ok : bool; stop_ok : bool; close_ok : bool }.

Definition dev_ok : DevIO := {| open_ok := true; start_ok := true; stop_ok := true; close_ok := true |}.

Local Open Scope py_scope.

(** ** Handlers *)

Section Handlers.
Context `{Backend}.

(** [beep(freq, duration)]: any error of [sd.play] is swallowed. *)
Definition beep (freq : Z) (duration : Q) : py Daemon unit :=
  py_modify (add_cue (Cue freq duration)).

(** [audio_callback]: [audio_chunks.append(indata.copy())] *)
Definition audio_callback (indata : list Q) : py Daemon unit :=
  py_modify (fun d => set_chunks (audio_chunks d ++ [indata]) d).

Definition start_recording (io : DevIO) : py Daemon unit :=
  py_modify (set_chunks []) ;;
  (if open_ok io then py_modify (set_stream (Some Inactive))
   else py_raise PortAudioError) ;;
  (if start_ok io then py_modify (set_stream (Some Active))
   else py_raise PortAudioError) ;;
  beep 880 (8 # 100).

Definition stop_recording (io : DevIO) : py Daemon (list Q) :=
  s <- py_gets stream ;;
  (match s with
   | Some _ =>
       (if stop_ok io then py_modify (set_stream (Some Inactive))
        else py_raise PortAudioError) ;;
       (if close_ok io then py_ret tt else py_raise PortAudioError) ;;
       py_modify (set_stream None)
   | None => py_ret tt
   end) ;;
  beep 440 (12 # 100) ;;
  chunks <- py_gets audio_chunks ;;
  match chunks with
  | [] => py_ret []
  | _ => py_ret (List.concat chunks)
  end.

Definition transcribe (audio : list Q) : py Daemon string :=
  if Gate.rejects audio then py_ret EmptyString
  else
    py_modify (add_whisper_call audio) ;;
    match whisper_transcribe audio Config.LANGUAGE with
    | Some segments => py_ret (PyStr.strip (PyStr.join " "%string segments))
    | None => py_raise TranscribeError
    end.

Definition paste_text (text : string) : py Daemon unit :=
  (if pyperclip_copy_ok text then py_modify (add_clipboard text)
   else py_raise PyperclipException) ;;
  beep 660 (8 # 100).

(** Lines 106-117 of [transcribe_and_paste]: the [try] with its
    [except Exception]. *)
Definition transcribe_and_paste_body (audio : list Q) : py Daemon unit :=
  py_try_except
    (text <- transcribe audio ;;
     match text with
     | EmptyString => beep 220 (2 # 10)
     | _ => paste_text (" " ++ text)%string ;; beep 660 (8 # 100)
     end)
    (fun _ => beep 220 (2 # 10)).

(** [transcribe_and_paste]: the body, then the [finally] of lines 118-120. *)
Definition transcribe_and_paste (audio : list Q) : py Daemon unit :=
  py_try_finally (transcribe_and_paste_body audio) (py_modify (set_state IDLE)).

(** [threading.Thread(target=transcribe_and_paste, args=(audio,)).start()] *)
Definition spawn_transcription (audio : list Q) : py Daemon unit :=
  py_modify (fun d => set_threads (threads d ++ [audio]) d).

Definition toggle_recording (io : DevIO) : py Daemon unit :=
  s <- py_gets state ;;
  match s with
  | IDLE => py_modify (set_state RECORDING) ;; start_recording io
  | RECORDING =>
      py_modify (set_state TRANSCRIBING) ;;
      audio <- stop_recording io ;;
      spawn_transcription audio
  | TRANSCRIBING => py_ret tt
  end.
End Handlers.

(** ** Behaviour of the handlers *)

Ltac simpl_daemon :=
  unfold set_state, set_chunks, set_stream, set_threads, add_cue,
    add_clipboard, add_whisper_call in *;
  cbn [state audio_chunks stream threads cues clipboard whisper_calls] in *.

Ltac unfold_handlers :=
  unfold toggle_recording, start_recording, stop_recording,
    spawn_transcription, transcribe_and_paste, transcribe_and_paste_body,
    paste_text, beep,
    audio_callback in *; py_simpl.

Section HandlerFacts.
Context `{Backend}.

Lemma transcribe_rejected audio d :
  Gate.rejects audio = true -> transcribe audio d = (Ok EmptyString, d).
Proof. intros Hr. unfold transcribe. now rewrite Hr. Qed.

Lemma transcribe_segments audio segments d :
  Gate.rejects audio = false ->
  whisper_transcribe audio Config.LANGUAGE = Some segments ->
  transcribe audio d
  = (Ok (PyStr.strip (PyStr.join " " segments)), add_whisper_call audio d).
Proof. intros Hr Hw. unfold transcribe. rewrite Hr. py_simpl. now rewrite Hw. Qed.

Lemma transcribe_raises audio d :
  Gate.rejects audio = false ->
  whisper_transcribe audio Config.LANGUAGE = None ->
  transcribe audio d = (Exc TranscribeError, add_whisper_call audio d).
Proof. intros Hr Hw. unfold transcribe. rewrite Hr. py_simpl. now rewrite Hw. Qed.

(** The "no speech" ending: failure cue, then [state = IDLE]. *)
Definition no_speech_end (d : Daemon) : Daemon :=
  set_state IDLE (add_cue (Cue 220 (2 # 10)) d).

Lemma transcribe_and_paste_empty audio d d' :
  transcribe audio d = (Ok EmptyString, d') ->
  transcribe_and_paste audio d = (Ok tt, no_speech_end d').
Proof. intros Ht. unfold_handlers. rewrite Ht. reflexivity. Qed.

Lemma transcribe_and_paste_text audio d d' text :
  transcribe audio d = (Ok text, d') -> text <> EmptyString ->
  transcribe_and_paste audio d
  = (if pyperclip_copy_ok (" " ++ text)
     then (Ok tt, set_state IDLE (add_cue (Cue 660 (8 # 100))
                     (add_cue (Cue 660 (8 # 100)) (add_clipboard (" " ++ text) d'))))
     else (Ok tt, no_speech_end d'))%string.
Proof.
  intros Ht Hne. unfold_handlers. rewrite Ht.
  destruct text as [|c rest]; [congruence|].
  destruct (pyperclip_copy_ok _); reflexivity.
Qed.

Lemma transcribe_and_paste_raises audio d d' :
  transcribe audio d = (Exc TranscribeError, d') ->
  transcribe_and_paste audio d = (Ok tt, no_speech_end d').
Proof. intros Ht. unfold_handlers. rewrite Ht. reflexivity. Qed.
End HandlerFacts.

(** ** The transcription thread *)

Section TranscriptionThread.
Context `{Backend}.

Lemma transcribe_effect audio d r d' :
  transcribe audio d = (r, d') -> d' = d \/ d' = add_whisper_call audio d.
Proof.
  unfold transcribe. destruct (Gate.rejects audio); py_simpl; [injection 1; auto|].
  destruct (whisper_transcribe audio Config.LANGUAGE); injection 1; auto.
Qed.

Lemma transcribe_exc audio d e d' :
  transcribe audio d = (Exc e, d') -> e = TranscribeError.
Proof.
  unfold transcribe. destruct (Gate.rejects audio); py_simpl; [discriminate|].
  destruct (whisper_transcribe audio Config.LANGUAGE); congruence.
Qed.

(** The [try]/[except] of [transcribe_and_paste] never lets an exception
    escape and touches neither [state], the stream, the recording buffer
    nor the list of threads. *)
Lemma transcribe_and_paste_body_total audio d :
  exists d1, transcribe_and_paste_body audio d = (Ok tt, d1) /\ state d1 = state d
             /\ stream d1 = stream d /\ threads d1 = threads d
             /\ audio_chunks d1 = audio_chunks d.
Proof.
  unfold transcribe_and_paste_body, paste_text, beep. py_simpl.
  destruct (transcribe audio d) as [[[|c rest]|e] d'] eqn:Ht;
    destruct (transcribe_effect audio d _ _ Ht) as [->| ->];
    try destruct (pyperclip_copy_ok _); cbn; try (eexists; repeat split; fail);
    rewrite (transcribe_exc audio d e _ Ht); cbn; eexists; repeat split.
Qed.

(** The [finally] runs after the body and only sets [state]. *)
Lemma transcribe_and_paste_finally audio d :
  transcribe_and_paste audio d
  = let (r, d1) := transcribe_and_paste_body audio d in (r, set_state IDLE d1).
Proof.
  unfold transcribe_and_paste, py_try_finally, py_modify.
  destruct (transcribe_and_paste_body audio d). reflexivity.
Qed.

(** [transcribe_and_paste] never lets an exception escape, and its
    [finally] always leaves [state] at IDLE; it touches neither the
    stream, the recording buffer nor the list of threads. *)
Theorem transcribe_and_paste_total audio d :
  exists d', transcribe_and_paste audio d = (Ok tt, d') /\ state d' = IDLE
             /\ stream d' = stream d /\ threads d' = threads d
             /\ audio_chunks d' = audio_chunks d.
Proof.
  destruct (transcribe_and_paste_body_total audio d) as (d1 & Hb & _ & Hs & Ht & Hc).
  rewrite transcribe_and_paste_finally, Hb. eexists; repeat split; assumption.
Qed.

(** C6: a buffer shorter than [SAMPLE_RATE * 0.5] samples never
    reaches Whisper: the outcome is "no speech" (one 220 Hz cue), no
    clipboard write, and [state] back to IDLE. *)
Theorem short_buffer_no_speech audio d :
  (Z.of_nat (List.length audio) < 8000)%Z ->
  transcribe_and_paste audio d = (Ok tt, no_speech_end d).
Proof.
  intros Hlen. apply transcribe_and_paste_empty, transcribe_rejected.
  apply Gate.rejects_iff. now left.
Qed.

(** C7: a buffer whose RMS energy is not above 0.005 never reaches
    Whisper, whatever its length. *)
Theorem quiet_buffer_no_speech audio d :
  ~ Gate.has_speech_R audio Gate.SPEECH_THRESHOLD ->
  transcribe_and_paste audio d = (Ok tt, no_speech_end d).
Proof.
  intros Hq. apply transcribe_and_paste_empty, transcribe_rejected.
  apply Gate.rejects_iff. now right.
Qed.

(** C8: a buffer of at least half a second with RMS energy above 0.005
    is handed to Whisper exactly once, whole. *)
Theorem loud_buffer_whisper_once audio d :
  (8000 <= Z.of_nat (List.length audio))%Z ->
  Gate.has_speech_R audio Gate.SPEECH_THRESHOLD ->
  exists d', transcribe_and_paste audio d = (Ok tt, d')
             /\ whisper_calls d' = whisper_calls d ++ [audio].
Proof.
  intros Hlen Hs. pose proof (Gate.rejects_false audio Hlen Hs) as Hr.
  destruct (whisper_transcribe audio Config.LANGUAGE) as [segs|] eqn:Hw.
  - pose proof (transcribe_segments audio segs d Hr Hw) as Ht.
    destruct (PyStr.strip (PyStr.join " " segs)) as [|c r] eqn:Hs'.
    + rewrite (transcribe_and_paste_empty _ _ _ Ht). eexists; split; reflexivity.
    + rewrite (transcribe_and_paste_text _ _ _ _ Ht) by discriminate.
      destruct (pyperclip_copy_ok _); eexists; split; reflexivity.
  - rewrite (transcribe_and_paste_raises _ _ _ (transcribe_raises audio d Hr Hw)).
    eexists; split; reflexivity.
Qed.

(** C9: when Whisper returns segments whose joined, stripped text is
    not empty and the clipboard accepts it, the clipboard receives
    exactly that text with a leading space, the success cue sounds
    twice (once in [paste_text], once after it) and [state] ends IDLE. *)
Theorem transcription_success audio segments d :
  (8000 <= Z.of_nat (List.length audio))%Z ->
  Gate.has_speech_R audio Gate.SPEECH_THRESHOLD ->
  whisper_transcribe audio Config.LANGUAGE = Some segments ->
  let text := PyStr.strip (PyStr.join " " segments) in
  text <> EmptyString ->
  pyperclip_copy_ok (" " ++ text)%string = true ->
  transcribe_and_paste audio d
  = (Ok tt, set_state IDLE
              (add_cue (Cue 660 (8 # 100)) (add_cue (Cue 660 (8 # 100))
                 (add_clipboard (" " ++ text)%string (add_whisper_call audio d))))).
Proof.
  intros Hlen Hs Hw text Hne Hc.
  pose proof (Gate.rejects_false audio Hlen Hs) as Hr.
  rewrite (transcribe_and_paste_text _ _ _ _ (transcribe_segments audio segments d Hr Hw) Hne).
  fold text. now rewrite Hc.
Qed.

(** C10: when Whisper raises, the error is contained: no clipboard
    write, the failure cue, and [state] back to IDLE. *)
Theorem whisper_error_contained audio d :
  (8000 <= Z.of_nat (List.length audio))%Z ->
  Gate.has_speech_R audio Gate.SPEECH_THRESHOLD ->
  whisper_transcribe audio Config.LANGUAGE = None ->
  transcribe_and_paste audio d = (Ok tt, no_speech_end (add_whisper_call audio d)).
Proof.
  intros Hlen Hs Hw. pose proof (Gate.rejects_false audio Hlen Hs) as Hr.
  apply transcribe_and_paste_raises, transcribe_raises; assumption.
Qed.

(** C19: A clipboard failure is contained the same way. *)
Theorem clipboard_error_contained audio segments d :
  (8000 <= Z.of_nat (List.length audio))%Z ->
  Gate.has_speech_R audio Gate.SPEECH_THRESHOLD ->
  whisper_transcribe audio Config.LANGUAGE = Some segments ->
  let text := PyStr.strip (PyStr.join " " segments) in
  text <> EmptyString ->
  pyperclip_copy_ok (" " ++ text)%string = false ->
  transcribe_and_paste audio d = (Ok tt, no_speech_end (add_whisper_call audio d)).
Proof.
  intros Hlen Hs Hw text Hne Hc.
  pose proof (Gate.rejects_false audio Hlen Hs) as Hr.
  rewrite (transcribe_and_paste_text _ _ _ _ (transcribe_segments audio segments d Hr Hw) Hne).
  fold text. now rewrite Hc.
Qed.
End TranscriptionThread.

(** ** The toggle handler, branch by branch *)

Section ToggleFacts.
Context `{Backend}.

Lemma toggle_from_idle io d :
  state d = IDLE ->
  toggle_recording io d =
  if open_ok io then
    if start_ok io then
      (Ok tt, mkDaemon RECORDING [] (Some Active) (threads d)
                (cues d ++ [Cue 880 (8 # 100)]) (clipboard d) (whisper_calls d))
    else (Exc PortAudioError, mkDaemon RECORDING [] (Some Inactive) (threads d)
                                (cues d) (clipboard d) (whisper_calls d))
  else (Exc PortAudioError, mkDaemon RECORDING [] (stream d) (threads d)
                              (cues d) (clipboard d) (whisper_calls d)).
Proof.
  intros Hs. unfold_handlers. rewrite Hs.
  destruct (open_ok io), (start_ok io); reflexivity.
Qed.

Lemma toggle_from_recording io d :
  state d = RECORDING ->
  toggle_recording io d =
  let done_ := (Ok tt, mkDaemon TRANSCRIBING (audio_chunks d) None
                         (threads d ++ [List.concat (audio_chunks d)])
                         (cues d ++ [Cue 440 (12 # 100)]) (clipboard d)
                         (whisper_calls d)) in
  match stream d with
  | Some st =>
      if stop_ok io then
        if close_ok io then done_
        else (Exc PortAudioError, mkDaemon TRANSCRIBING (audio_chunks d)
                                    (Some Inactive) (threads d) (cues d)
                                    (clipboard d) (whisper_calls d))
      else (Exc PortAudioError, mkDaemon TRANSCRIBING (audio_chunks d) (Some st)
                                  (threads d) (cues d) (clipboard d)
                                  (whisper_calls d))
  | None => done_
  end.
Proof.
  intros Hs. unfold_handlers. rewrite Hs. simpl_daemon.
  destruct (stream d), (stop_ok io), (close_ok io); simpl_daemon;
    destruct (audio_chunks d) eqn:E; simpl_daemon; rewrite ?E; reflexivity.
Qed.
End ToggleFacts.

(** ** Events and the step relation *)

Inductive event : Type :=
| Toggle (io : DevIO)      (** SIGUSR1: [toggle_recording] *)
| Frame (indata : list Q)  (** the PortAudio thread calls [audio_callback] *)
| Finish (i : nat).        (** the [i]-th live thread runs [transcribe_and_paste] *)

Definition remove_nth {A} (i : nat) (l : list A) : list A :=
  firstn i l ++ skipn (S i) l.

Section Steps.
Context `{Backend}.

(** [None]: the event cannot happen in this state (no active stream,
    no such thread). *)
Definition run_event (ev : event) (d : Daemon) : option (outcome unit * Daemon) :=
  match ev with
  | Toggle io => Some (toggle_recording io d)
  | Frame x =>
      match stream d with
      | Some Active => Some (audio_callback x d)
      | _ => None
      end
  | Finish i =>
      match nth_error (threads d) i with
      | Some audio =>
          Some (transcribe_and_paste audio (set_threads (remove_nth i (threads d)) d))
      | None => None
      end
  end.

Inductive step : Daemon -> event -> Daemon -> Prop :=
| step_run d ev d' : run_event ev d = Some (Ok tt, d') -> step d ev d'.

Definition step_any (d d' : Daemon) : Prop := exists ev, step d ev d'.

Definition reachable (d : Daemon) : Prop := star step_any initial d.

(** Replay a sequence of events; [None] when one is impossible or raises. *)
Fixpoint run_events (evs : list event) (d : Daemon) : option Daemon :=
  match evs with
  | [] => Some d
  | ev :: rest =>
      match run_event ev d with
      | Some (Ok _, d') => run_events rest d'
      | _ => None
      end
  end.
End Steps.

(** The controller invariant: [state] determines the stream and the
    number of live transcription threads. *)
Definition inv (d : Daemon) : Prop :=
  match state d with
  | IDLE => stream d = None /\ threads d = []
  | RECORDING => stream d = Some Active /\ threads d = []
  | TRANSCRIBING => stream d = None /\ exists audio, threads d = [audio]
  end.

(** ** The specification's state machine *)

(** Section 4.1 of the specification: IDLE, RECORDING with the buffer
    accumulated so far, TRANSCRIBING with the buffer handed to the
    thread; driven by toggles, frames and the end of transcription. *)
Inductive AState : Type :=
| AIdle
| ARecording (buffer : list Q)
| ATranscribing (buffer : list Q).

Inductive aevent : Type := AToggle | AFrame (x : list Q) | ADone.

(** [None]: the specification does not allow the event there. *)
Definition spec_step (a : AState) (e : aevent) : option AState :=
  match a, e with
  | AIdle, AToggle => Some (ARecording [])
  | ARecording b, AFrame x => Some (ARecording (b ++ x))
  | ARecording b, AToggle => Some (ATranscribing b)
  | ATranscribing b, AToggle => Some (ATranscribing b)
  | ATranscribing _, ADone => Some AIdle
  | _, _ => None
  end.

Fixpoint spec_run (es : list aevent) (a : AState) : option AState :=
  match es with
  | [] => Some a
  | e :: rest => match spec_step a e with Some a' => spec_run rest a' | None => None end
  end.

Definition label (ev : event) : aevent :=
  match ev with Toggle _ => AToggle | Frame x => AFrame x | Finish _ => ADone end.

Definition abs (d : Daemon) : AState :=
  match state d with
  | IDLE => AIdle
  | RECORDING => ARecording (List.concat (audio_chunks d))
  | TRANSCRIBING => ATranscribing (hd [] (threads d))
  end.

(** ** Steps from a state satisfying the invariant *)

Section StepFacts.
Context `{Backend}.

Lemma inv_initial : inv initial.
Proof. split; reflexivity. Qed.

(** The three successful toggles. *)
Lemma toggle_step_cases io d d' :
  inv d -> toggle_recording io d = (Ok tt, d') ->
  (state d = IDLE /\ d' = mkDaemon RECORDING [] (Some Active) (threads d)
                            (cues d ++ [Cue 880 (8 # 100)]) (clipboard d)
                            (whisper_calls d))
  \/ (state d = RECORDING
      /\ d' = mkDaemon TRANSCRIBING (audio_chunks d) None
                (threads d ++ [List.concat (audio_chunks d)])
                (cues d ++ [Cue 440 (12 # 100)]) (clipboard d) (whisper_calls d))
  \/ (state d = TRANSCRIBING /\ d' = d).
Proof.
  intros Hinv Hrun. unfold inv in Hinv. destruct (state d) eqn:Hs.
  - rewrite (toggle_from_idle io d Hs) in Hrun.
    destruct (open_ok io), (start_ok io); inversion Hrun; auto.
  - rewrite (toggle_from_recording io d Hs) in Hrun. destruct Hinv as [Hst _].
    rewrite Hst in Hrun. cbv zeta in Hrun.
    destruct (stop_ok io), (close_ok io); inversion Hrun; auto.
  - unfold toggle_recording in Hrun. py_simpl. rewrite Hs in Hrun.
    inversion Hrun; auto.
Qed.

Lemma finish_step_cases i d d' :
  inv d -> step d (Finish i) d' ->
  state d = TRANSCRIBING /\ state d' = IDLE /\ stream d' = None /\ threads d' = []
  /\ abs d = ATranscribing (hd [] (threads d)).
Proof.
  intros Hinv Hstep. inversion Hstep as [? ? ? Hrun]; subst. cbn [run_event] in Hrun.
  destruct (nth_error (threads d) i) as [audio|] eqn:Hnth; [|discriminate].
  injection Hrun as Hrun.
  destruct (transcribe_and_paste_total audio
              (set_threads (remove_nth i (threads d)) d)) as (d1 & Hr & Hs1 & Hst1 & Hth1 & _).
  rewrite Hr in Hrun. injection Hrun as <-. unfold abs.
  unfold inv in Hinv. destruct (state d) eqn:Hs.
  - destruct Hinv as [_ Ht]. rewrite Ht in Hnth. destruct i; discriminate.
  - destruct Hinv as [_ Ht]. rewrite Ht in Hnth. destruct i; discriminate.
  - destruct Hinv as [Hstr [a Ht]]. rewrite Ht in Hnth, Hth1.
    destruct i as [|[|i]]; try discriminate. simpl_daemon.
    repeat split; auto. now rewrite Hst1.
Qed.

Lemma frame_step_cases x d d' :
  inv d -> step d (Frame x) d' ->
  state d = RECORDING /\ d' = set_chunks (audio_chunks d ++ [x]) d.
Proof.
  intros Hinv Hstep. inversion Hstep as [? ? ? Hrun]; subst. cbn [run_event] in Hrun.
  unfold inv in Hinv.
  destruct (stream d) as [[|]|] eqn:Hst; try discriminate.
  injection Hrun as Hrun. inversion Hrun; subst.
  destruct (state d); intuition congruence.
Qed.

Lemma inv_step d ev d' : inv d -> step d ev d' -> inv d'.
Proof.
  intros Hinv Hstep. destruct ev as [io|x|i].
  - inversion Hstep as [? ? ? Hrun]; subst. injection Hrun as Hrun.
    destruct (toggle_step_cases io d d' Hinv Hrun) as [(Hs & ->)|[(Hs & ->)|(Hs & ->)]];
      [| |exact Hinv]; unfold inv in *; rewrite Hs in Hinv; cbn.
    + split; [reflexivity | apply Hinv].
    + destruct Hinv as [_ ->]. split; [reflexivity | eexists; reflexivity].
  - destruct (frame_step_cases x d d' Hinv Hstep) as [Hs ->].
    unfold inv in *. simpl_daemon. now rewrite Hs in *.
  - destruct (finish_step_cases i d d' Hinv Hstep) as (_ & Hs & Hst & Ht & _).
    unfold inv. rewrite Hs. auto.
Qed.

Lemma reachable_inv d : reachable d -> inv d.
Proof.
  intros Hr. apply (star_invariant step_any inv) with initial; auto using inv_initial.
  intros a b Ha [ev Hs]. eauto using inv_step.
Qed.

Lemma step_refines d ev d' :
  inv d -> step d ev d' -> spec_step (abs d) (label ev) = Some (abs d').
Proof.
  intros Hinv Hstep. destruct ev as [io|x|i]; cbn [label].
  - inversion Hstep as [? ? ? Hrun]; subst. injection Hrun as Hrun.
    destruct (toggle_step_cases io d d' Hinv Hrun) as [(Hs & ->)|[(Hs & ->)|(Hs & ->)]];
      unfold abs; rewrite Hs; cbn; [reflexivity | | reflexivity].
    unfold inv in Hinv. rewrite Hs in Hinv. destruct Hinv as [_ ->]. reflexivity.
  - destruct (frame_step_cases x d d' Hinv Hstep) as [Hs ->].
    unfold abs. simpl_daemon. rewrite Hs, concat_app. cbn. now rewrite app_nil_r.
  - destruct (finish_step_cases i d d' Hinv Hstep) as (_ & Hs & _ & _ & Ha).
    rewrite Ha. unfold abs. now rewrite Hs.
Qed.

Lemma run_events_refines evs d d' :
  inv d -> run_events evs d = Some d' ->
  inv d' /\ spec_run (map label evs) (abs d) = Some (abs d').
Proof.
  revert d; induction evs as [|ev rest IH]; intros d Hinv Hrun; cbn in Hrun.
  - injection Hrun as <-. auto.
  - destruct (run_event ev d) as [[o d1]|] eqn:Hev; [|discriminate].
    destruct o as [[]|e]; [|discriminate].
    assert (Hs : step d ev d1) by now constructor.
    cbn [map spec_run]. rewrite (step_refines d ev d1 Hinv Hs).
    apply IH; [eapply inv_step; eauto | exact Hrun].
Qed.
End StepFacts.

(** ** Theorems about the controller *)

Definition next_state (s : State) : State :=
  match s with IDLE => RECORDING | RECORDING => TRANSCRIBING | TRANSCRIBING => IDLE end.

Section ControllerTheorems.
Context `{Backend}.

(** C1: Refinement: whatever sequence of toggles, audio blocks and thread
    ends drives the daemon from its initial globals, the specification's
    machine accepts the same sequence of events and ends in the
    abstraction of the daemon's final state (same controller state, same
    recording buffer, same buffer handed to transcription). *)
Theorem controller_refines_spec evs d :
  run_events evs initial = Some d -> spec_run (map label evs) AIdle = Some (abs d).
Proof. intros Hrun. apply (run_events_refines evs initial d inv_initial Hrun). Qed.

(** C4: At most one transcription thread is ever alive, and one is alive
    exactly while [state] is TRANSCRIBING. *)
Theorem single_transcription_thread d :
  reachable d ->
  (List.length (threads d) <= 1)%nat /\ (threads d <> [] <-> state d = TRANSCRIBING).
Proof.
  intros Hr. pose proof (reachable_inv d Hr) as Hinv. unfold inv in Hinv.
  destruct (state d);
    [destruct Hinv as [_ ->] | destruct Hinv as [_ ->] | destruct Hinv as [_ [a ->]]];
    (split; [cbn; lia | split; intros; congruence]).
Qed.

(** C20: Audio is appended to [audio_chunks] only while [state] is
    RECORDING, and nothing else changes. *)
Theorem frames_only_while_recording d x d' :
  reachable d -> step d (Frame x) d' ->
  state d = RECORDING /\ d' = set_chunks (audio_chunks d ++ [x]) d.
Proof. intros Hr. apply frame_step_cases, reachable_inv, Hr. Qed.

(** C2: A toggle while TRANSCRIBING changes nothing: no state change, no
    stream opened, no cue; whatever the devices would do. *)
Theorem toggle_ignored_while_transcribing io d :
  state d = TRANSCRIBING -> toggle_recording io d = (Ok tt, d).
Proof. intros Hs. unfold toggle_recording. py_simpl. now rewrite Hs. Qed.

(** C3: Each step leaves [state] alone or moves it one place along
    IDLE -> RECORDING -> TRANSCRIBING -> IDLE; the first two moves are
    toggles, the last is the end of the transcription thread, never a
    toggle. *)
Theorem state_cycle d ev d' :
  reachable d -> step d ev d' ->
  state d' = state d
  \/ (state d' = next_state (state d)
      /\ match state d with
         | TRANSCRIBING => exists i, ev = Finish i
         | _ => exists io, ev = Toggle io
         end).
Proof.
  intros Hr Hstep. pose proof (reachable_inv d Hr) as Hinv.
  destruct ev as [io|x|i].
  - inversion Hstep as [? ? ? Hrun]; subst. injection Hrun as Hrun.
    destruct (toggle_step_cases io d d' Hinv Hrun) as [(Hs & ->)|[(Hs & ->)|(Hs & ->)]];
      [right | right | left]; rewrite ?Hs; eauto.
  - left. destruct (frame_step_cases x d d' Hinv Hstep) as [_ ->]. reflexivity.
  - destruct (finish_step_cases i d d' Hinv Hstep) as (Hs & Hs' & _).
    right. rewrite Hs, Hs'. eauto.
Qed.

(** C5: The thread started by the stop toggle can always run to its end,
    and its end puts the controller back to IDLE. *)
Theorem transcription_always_returns_idle d :
  reachable d -> state d = TRANSCRIBING ->
  exists d', step d (Finish 0) d' /\ state d' = IDLE /\ abs d' = AIdle.
Proof.
  intros Hr Hs. pose proof (reachable_inv d Hr) as Hinv. unfold inv in Hinv.
  rewrite Hs in Hinv. destruct Hinv as [_ [a Ht]].
  destruct (transcribe_and_paste_total a (set_threads (remove_nth 0 (threads d)) d))
    as (d' & Hrun & Hs' & _).
  exists d'. split.
  { constructor. cbn [run_event]. rewrite Ht. cbn [nth_error].
    rewrite <- Ht. now rewrite Hrun. }
  unfold abs. now rewrite Hs'.
Qed.

(** C21: A failing [stream.stop()] leaves [state] at TRANSCRIBING (it was
    assigned before [stop_recording] ran), the stream active and no
    transcription thread.  Were the exception contained, no later event
    could leave TRANSCRIBING: every toggle is ignored and no thread can
    end.  (Specification, section 9, expects RECORDING.) *)
Theorem stop_failure_stuck_transcribing io d :
  inv d -> state d = RECORDING -> stop_ok io = false ->
  exists d', toggle_recording io d = (Exc PortAudioError, d')
    /\ state d' = TRANSCRIBING /\ stream d' = Some Active /\ threads d' = []
    /\ forall d'', star step_any d' d'' -> state d'' = TRANSCRIBING.
Proof.
  intros Hinv Hs Hstop. rewrite (toggle_from_recording io d Hs).
  unfold inv in Hinv. rewrite Hs in Hinv. destruct Hinv as [Hst Ht].
  rewrite Hst, Hstop. eexists; split; [reflexivity|]. cbn.
  repeat split; auto. intros d'' Hrun.
  apply (star_invariant step_any (fun x => state x = TRANSCRIBING /\ threads x = []))
    in Hrun; [now destruct Hrun | | split; [reflexivity | exact Ht]].
  intros a b [Ha Hta] [ev Hstep]. inversion Hstep as [? ? ? Hr]; subst.
  destruct ev as [io'|x|i]; cbn [run_event] in Hr.
  - unfold toggle_recording in Hr. py_simpl. rewrite Ha in Hr. now inversion Hr; subst.
  - destruct (stream a) as [[|]|]; try discriminate. inversion Hr; subst. now simpl_daemon.
  - rewrite Hta in Hr. destruct i; discriminate.
Qed.
End ControllerTheorems.

(** ** Concrete runs *)

Lemma run_events_star `{Backend} evs d d' :
  run_events evs d = Some d' -> star step_any d d'.
Proof.
  revert d; induction evs as [|ev rest IH]; intros d Hrun; cbn in Hrun.
  - injection Hrun as <-. apply star_refl.
  - destruct (run_event ev d) as [[o d1]|] eqn:Hev; [|discriminate].
    destruct o as [[]|e]; [|discriminate].
    apply star_step with d1; [exists ev; now constructor | now apply IH].
Qed.

Module Examples.
(** A backend whose Whisper hears "Hello world." and whose clipboard works. *)
#[local] Instance demo_backend : Backend :=
  {| whisper_transcribe := fun _ _ => Some [" Hello"; " world."]%string;
     pyperclip_copy_ok := fun _ => true |}.

(** Half a second of full-scale samples, and a short or silent one. *)
Definition loud : list Q := repeat 1 (Z.to_nat 8000).
Definition silent : list Q := repeat 0 (Z.to_nat 8000).

Definition recording_daemon : Daemon :=
  mkDaemon RECORDING [] (Some Active) [] [Cue 880 (8 # 100)] [] [].

Definition transcribing_daemon : Daemon :=
  mkDaemon TRANSCRIBING [loud] None [loud]
           [Cue 880 (8 # 100); Cue 440 (12 # 100)] [] [].

Definition stop_fails : DevIO :=
  {| open_ok := true; start_ok := true; stop_ok := false; close_ok := true |}.

Lemma recording_daemon_reachable : reachable recording_daemon.
Proof. apply (run_events_star [Toggle dev_ok]). vm_compute. reflexivity. Qed.

Lemma transcribing_daemon_reachable : reachable transcribing_daemon.
Proof.
  apply (run_events_star [Toggle dev_ok; Frame loud; Toggle dev_ok]).
  vm_compute. reflexivity.
Qed.

Lemma loud_has_speech : Gate.has_speech_R loud Gate.SPEECH_THRESHOLD.
Proof. apply Gate.has_speech_R_of_true. vm_compute. reflexivity. Qed.

Lemma loud_length : (8000 <= Z.of_nat (List.length loud))%Z.
Proof. vm_compute. discriminate. Qed.
(** A Whisper that raises, and a clipboard without a copy mechanism. *)
Definition failing_whisper : Backend :=
  {| whisper_transcribe := fun _ _ => None; pyperclip_copy_ok := fun _ => true |}.
Definition failing_clipboard : Backend :=
  {| whisper_transcribe := fun _ _ => Some [" Hello"; " world."]%string;
     pyperclip_copy_ok := fun _ => false |}.

Lemma controller_refines_spec_witness :
  run_events [Toggle dev_ok; Frame loud; Toggle dev_ok] initial = Some transcribing_daemon /\
  spec_run (map label [Toggle dev_ok; Frame loud; Toggle dev_ok]) AIdle
  = Some (abs transcribing_daemon).
Proof.
  assert (Hrun : run_events [Toggle dev_ok; Frame loud; Toggle dev_ok] initial
                 = Some transcribing_daemon) by (vm_compute; reflexivity).
  split; [exact Hrun | apply controller_refines_spec, Hrun].
Defined.

Lemma single_transcription_thread_witness :
  reachable transcribing_daemon /\
  (List.length (threads transcribing_daemon) <= 1)%nat /\
  (threads transcribing_daemon <> [] <-> state transcribing_daemon = TRANSCRIBING).
Proof.
  split; [exact transcribing_daemon_reachable|].
  apply single_transcription_thread, transcribing_daemon_reachable.
Defined.

Lemma frames_only_while_recording_witness :
  reachable recording_daemon /\
  step recording_daemon (Frame [1]) (set_chunks [[1]] recording_daemon) /\
  state recording_daemon = RECORDING /\
  set_chunks [[1]] recording_daemon
  = set_chunks (audio_chunks recording_daemon ++ [[1]]) recording_daemon.
Proof.
  assert (Hs : step recording_daemon (Frame [1]) (set_chunks [[1]] recording_daemon))
    by (constructor; vm_compute; reflexivity).
  split; [exact recording_daemon_reachable | split; [exact Hs|]].
  apply (frames_only_while_recording recording_daemon [1]); [exact recording_daemon_reachable | exact Hs].
Defined.

Lemma toggle_ignored_while_transcribing_witness :
  state transcribing_daemon = TRANSCRIBING /\
  toggle_recording dev_ok transcribing_daemon = (Ok tt, transcribing_daemon).
Proof.
  split; [reflexivity|]. apply toggle_ignored_while_transcribing. reflexivity.
Defined.

Lemma state_cycle_witness :
  let d' := mkDaemon TRANSCRIBING [] None [[]]
              [Cue 880 (8 # 100); Cue 440 (12 # 100)] [] [] in
  reachable recording_daemon /\ step recording_daemon (Toggle dev_ok) d' /\
  (state d' = state recording_daemon
   \/ (state d' = next_state (state recording_daemon)
       /\ exists io, Toggle dev_ok = Toggle io)).
Proof.
  intros d'.
  assert (Hs : step recording_daemon (Toggle dev_ok) d')
    by (constructor; vm_compute; reflexivity).
  split; [exact recording_daemon_reachable | split; [exact Hs|]].
  apply (state_cycle recording_daemon (Toggle dev_ok) d'
           recording_daemon_reachable Hs).
Defined.

Lemma transcription_always_returns_idle_witness :
  reachable transcribing_daemon /\ state transcribing_daemon = TRANSCRIBING /\
  exists d', step transcribing_daemon (Finish 0) d' /\ state d' = IDLE /\ abs d' = AIdle.
Proof.
  split; [exact transcribing_daemon_reachable | split; [reflexivity|]].
  apply transcription_always_returns_idle; [exact transcribing_daemon_reachable | reflexivity].
Defined.

Lemma stop_failure_stuck_transcribing_witness :
  inv recording_daemon /\ state recording_daemon = RECORDING /\ stop_ok stop_fails = false /\
  exists d', toggle_recording stop_fails recording_daemon = (Exc PortAudioError, d')
    /\ state d' = TRANSCRIBING /\ stream d' = Some Active /\ threads d' = []
    /\ forall d'', star step_any d' d'' -> state d'' = TRANSCRIBING.
Proof.
  assert (Hinv : inv recording_daemon) by (split; reflexivity).
  split; [exact Hinv | split; [reflexivity | split; [reflexivity|]]].
  apply stop_failure_stuck_transcribing; [exact Hinv | reflexivity | reflexivity].
Defined.

Lemma short_buffer_no_speech_witness :
  (Z.of_nat (List.length [1 : Q]) < 8000)%Z /\
  transcribe_and_paste [1] initial = (Ok tt, no_speech_end initial).
Proof.
  split; [reflexivity|]. apply short_buffer_no_speech. reflexivity.
Defined.

Lemma quiet_buffer_no_speech_witness :
  ~ Gate.has_speech_R silent Gate.SPEECH_THRESHOLD /\
  transcribe_and_paste silent initial = (Ok tt, no_speech_end initial).
Proof.
  assert (Hq : ~ Gate.has_speech_R silent Gate.SPEECH_THRESHOLD)
    by (apply Gate.not_has_speech_R_of_false; vm_compute; reflexivity).
  split; [exact Hq|]. apply quiet_buffer_no_speech, Hq.
Defined.

Lemma loud_buffer_whisper_once_witness :
  (8000 <= Z.of_nat (List.length loud))%Z /\ Gate.has_speech_R loud Gate.SPEECH_THRESHOLD /\
  exists d', transcribe_and_paste loud initial = (Ok tt, d')
             /\ whisper_calls d' = whisper_calls initial ++ [loud].
Proof.
  split; [exact loud_length | split; [exact loud_has_speech|]].
  apply loud_buffer_whisper_once; [exact loud_length | exact loud_has_speech].
Defined.

Lemma transcription_success_witness :
  PyStr.strip (PyStr.join " " [" Hello"; " world."]%string) = "Hello  world."%string /\
  transcribe_and_paste loud initial
  = (Ok tt, set_state IDLE
              (add_cue (Cue 660 (8 # 100)) (add_cue (Cue 660 (8 # 100))
                 (add_clipboard " Hello  world."%string (add_whisper_call loud initial))))).
Proof.
  split; [vm_compute; reflexivity|].
  apply (transcription_success loud [" Hello"; " world."]%string initial
           loud_length loud_has_speech); [reflexivity | discriminate | reflexivity].
Defined.

Lemma whisper_error_contained_witness :
  @whisper_transcribe failing_whisper loud Config.LANGUAGE = None /\
  @transcribe_and_paste failing_whisper loud initial
  = (Ok tt, no_speech_end (add_whisper_call loud initial)).
Proof.
  split; [reflexivity|].
  apply (@whisper_error_contained failing_whisper); [exact loud_length | exact loud_has_speech | reflexivity].
Defined.

Lemma clipboard_error_contained_witness :
  @pyperclip_copy_ok failing_clipboard " Hello  world."%string = false /\
  @transcribe_and_paste failing_clipboard loud initial
  = (Ok tt, no_speech_end (add_whisper_call loud initial)).
Proof.
  split; [reflexivity|].
  apply (@clipboard_error_contained failing_clipboard loud [" Hello"; " world."]%string);
    [exact loud_length | exact loud_has_speech | reflexivity | discriminate | reflexivity].
Defined.

End Examples.

End Controller.
