(* ===== verification/Daemon.v ===== *)
(** * The daemon process: [main], signal dispatch and [cleanup]

    src/talktype_daemon.py, lines 141-181.  [main] runs its statements in
    order: create [~/.cache] (line 152), write the PID file (153), load
    the Whisper model (159-162), install the SIGUSR1, SIGINT and SIGTERM
    handlers (165-167), then sleep forever (176-177).  The program point
    reached is [main_pc].

    A signal is handled by the disposition in force at that point:
    - before line 165 runs, SIGUSR1 and SIGTERM have their default action
      and terminate the process; SIGINT raises [KeyboardInterrupt] in the
      main thread, which nothing catches, so the process ends by SIGINT;
    - afterwards SIGUSR1 runs [toggle_recording]; an exception it raises
      is raised in the main thread inside [time.sleep], where nothing
      catches it either: the interpreter prints the traceback and exits
      with status 1;
    - SIGINT (after line 166) and SIGTERM (after line 167) run [cleanup],
      which unlinks the PID file if it exists and exits with status 0.
    The transcription threads are daemon threads and end with the process.

    The file system holds what the program touches: the cache directory
    and the PID file's contents. *)

From Stdlib Require Import List String ZArith QArith Lia.
From S2P Require Import Prelude PyText SpeechGate Controller.
Import ListNotations.

Module DaemonProc.

Import Controller.

(** ** Data *)

Inductive signal : Type := SIGUSR1 | SIGINT | SIGTERM.

Inductive exit_status : Type :=
| ExitCode (code : Z)      (** [sys.exit(code)], or 1 after an uncaught exception *)
| KilledBy (s : signal).   (** ended by the signal's default action *)

(** The statement of [main] about to run. *)
Inductive main_pc : Type :=
| AtMkdir          (** [PID_FILE.parent.mkdir(exist_ok=True)] *)
| AtWrite          (** [PID_FILE.write_text(str(os.getpid()))] *)
| AtLoad           (** [whisper_model = WhisperModel(...)] *)
| AtInstallUSR1    (** [signal.signal(signal.SIGUSR1, toggle_recording)] *)
| AtInstallINT     (** [signal.signal(signal.SIGINT, cleanup)] *)
| AtInstallTERM    (** [signal.signal(signal.SIGTERM, cleanup)] *)
| Looping.         (** [while True: time.sleep(1)] *)

Definition pc_index (p : main_pc) : nat :=
  match p with
  | AtMkdir => 0 | AtWrite => 1 | AtLoad => 2 | AtInstallUSR1 => 3
  | AtInstallINT => 4 | AtInstallTERM => 5 | Looping => 6
  end.

(** [~/.cache] exists; the contents of [~/.cache/talktype_daemon.pid]. *)
Record FS : Type := mkFS { cache_dir : bool; pid_file : option string }.

Record World : Type := mkWorld {
  fs : FS;
  pid : Z;                     (** [os.getpid()] *)
  pc : main_pc;
  ctl : Daemon;                (** the controller's globals *)
  exited : option exit_status  (** [None] while the process lives *)
}.

Definition initial_world (fs0 : FS) (p : Z) : World :=
  mkWorld fs0 p AtMkdir Controller.initial None.

Definition set_fs (f : FS) (w : World) : World :=
  mkWorld f (pid w) (pc w) (ctl w) (exited w).
Definition set_pc (p : main_pc) (w : World) : World :=
  mkWorld (fs w) (pid w) p (ctl w) (exited w).
Definition set_ctl (c : Daemon) (w : World) : World :=
  mkWorld (fs w) (pid w) (pc w) c (exited w).
Definition set_exited (e : exit_status) (w : World) : World :=
  mkWorld (fs w) (pid w) (pc w) (ctl w) (Some e).

(** ** [main] *)

(** One statement of [main]; [load_ok] says whether [WhisperModel(...)]
    returns (it may raise, and nothing catches it). *)
Definition main_step (load_ok : bool) (w : World) : World :=
  match exited w with
  | Some _ => w
  | None =>
      match pc w with
      | AtMkdir => set_pc AtWrite (set_fs (mkFS true (pid_file (fs w))) w)
      | AtWrite =>
          set_pc AtLoad (set_fs (mkFS (cache_dir (fs w)) (Some (PyStr.str_of_Z (pid w)))) w)
      | AtLoad => if load_ok then set_pc AtInstallUSR1 w else set_exited (ExitCode 1) w
      | AtInstallUSR1 => set_pc AtInstallINT w
      | AtInstallINT => set_pc AtInstallTERM w
      | AtInstallTERM => set_pc Looping w
      | Looping => w
      end
  end.

(** Whether [main] has installed the program's handler for the signal. *)
Definition handler_installed (s : signal) (p : main_pc) : bool :=
  match s with
  | SIGUSR1 => 4 <=? pc_index p
  | SIGINT => 5 <=? pc_index p
  | SIGTERM => 6 <=? pc_index p
  end%nat.

(** [cleanup]: [if PID_FILE.exists(): PID_FILE.unlink()], then
    [sys.exit(0)]. *)
Definition cleanup (w : World) : World :=
  set_exited (ExitCode 0)
    (match pid_file (fs w) with
     | Some _ => set_fs (mkFS (cache_dir (fs w)) None) w
     | None => w
     end).

Section Signals.
Context `{Backend}.

(** The delivery of signal [s] to the daemon; [io] gives the device
    outcomes of a toggle. *)
Definition deliver (s : signal) (io : DevIO) (w : World) : World :=
  match exited w with
  | Some _ => w
  | None =>
      if handler_installed s (pc w) then
        match s with
        | SIGUSR1 =>
            match toggle_recording io (ctl w) with
            | (Ok _, c') => set_ctl c' w
            | (Exc _, c') => set_exited (ExitCode 1) (set_ctl c' w)
            end
        | SIGINT | SIGTERM => cleanup w
        end
      else set_exited (KilledBy s) w
  end.

(** An event of the controller's other threads (the PortAudio
    callback, a transcription thread) in a living process. *)
Definition thread_event (ev : event) (w : World) : option World :=
  match exited w with
  | Some _ => None
  | None =>
      match ev with
      | Toggle _ => None
      | _ =>
          match run_event ev (ctl w) with
          | Some (Ok _, c') => Some (set_ctl c' w)
          | _ => None
          end
      end
  end.
End Signals.

Inductive wevent : Type :=
| MainStep (load_ok : bool)
| Signal (s : signal) (io : DevIO)
| Thread (ev : event).

Section WorldSteps.
Context `{Backend}.

Definition run_wevent (e : wevent) (w : World) : option World :=
  match e with
  | MainStep ok => Some (main_step ok w)
  | Signal s io => Some (deliver s io w)
  | Thread ev => thread_event ev w
  end.

Fixpoint run_wevents (es : list wevent) (w : World) : option World :=
  match es with
  | [] => Some w
  | e :: rest => match run_wevent e w with Some w' => run_wevents rest w' | None => None end
  end.

Definition wstep (w w' : World) : Prop := exists e, run_wevent e w = Some w'.

Definition wreachable (fs0 : FS) (p : Z) (w : World) : Prop :=
  star wstep (initial_world fs0 p) w.
End WorldSteps.

(** ** Invariant of the daemon process *)

(** Once [main] has written the PID file, the file names the process
    until [cleanup] removes it; every other way of ending leaves it. *)
Definition pid_file_expected (w : World) : option string :=
  match exited w with
  | Some (ExitCode 0) => None
  | _ => Some (PyStr.str_of_Z (pid w))
  end.

Definition winv (w : World) : Prop :=
  ((2 <= pc_index (pc w))%nat -> pid_file (fs w) = pid_file_expected w)
  /\ (exited w = Some (ExitCode 0) -> (2 <= pc_index (pc w))%nat).

Ltac simpl_world :=
  unfold set_fs, set_pc, set_ctl, set_exited, pid_file_expected in *;
  cbn [fs pid pc ctl exited pid_file cache_dir pc_index] in *.

Section WorldFacts.
Context `{Backend}.

Lemma winv_initial fs0 p : winv (initial_world fs0 p).
Proof. split; cbn; [lia | discriminate]. Qed.

Lemma winv_main_step ok w : winv w -> winv (main_step ok w).
Proof.
  intros Hw. unfold main_step.
  destruct (exited w) eqn:Hx; [exact Hw|]. destruct Hw as [Hf He].
  unfold pid_file_expected in Hf. rewrite Hx in Hf.
  destruct (pc w) eqn:Hp; [| | destruct ok | | | |];
    unfold winv; simpl_world; rewrite ?Hp, ?Hx in *; split; intros; cbn in *;
    first [lia | discriminate | reflexivity | (apply Hf; lia)].
Qed.

Lemma winv_deliver s io w : winv w -> winv (deliver s io w).
Proof.
  intros Hw. unfold deliver.
  destruct (exited w) eqn:Hx; [exact Hw|]. destruct Hw as [Hf He].
  unfold pid_file_expected in Hf. rewrite Hx in Hf.
  destruct (handler_installed s (pc w)) eqn:Hh.
  - assert (Hpc : (2 <= pc_index (pc w))%nat)
      by (destruct s; unfold handler_installed in Hh; apply Nat.leb_le in Hh; lia).
    destruct s; [destruct (toggle_recording io (ctl w)) as [[] c'] | unfold cleanup; destruct (pid_file (fs w)) .. ];
      unfold winv; simpl_world; rewrite ?Hx; split; intros; cbn in *;
      first [lia | discriminate | reflexivity | (apply Hf; lia)
            | (pose proof (Hf ltac:(lia)); discriminate)].
  - unfold winv; simpl_world; split; intros; cbn in *;
      first [lia | discriminate | reflexivity | (apply Hf; lia)].
Qed.

Lemma winv_thread ev w w' : winv w -> thread_event ev w = Some w' -> winv w'.
Proof.
  intros Hw Ht. unfold thread_event in Ht.
  destruct (exited w); [discriminate|].
  destruct ev as [io|x|i]; [discriminate| |];
    destruct (run_event _ (ctl w)) as [[[a|e] c']|]; try discriminate;
    injection Ht as <-; exact Hw.
Qed.

Lemma wreachable_winv fs0 p w : wreachable fs0 p w -> winv w.
Proof.
  intros Hr. apply (star_invariant wstep winv) with (initial_world fs0 p);
    auto using winv_initial.
  intros a b Ha [[ok|s io|ev] He]; cbn in He;
    [injection He as <-; auto using winv_main_step
    | injection He as <-; auto using winv_deliver
    | eauto using winv_thread].
Qed.

Lemma wreachable_pid w fs0 p : wreachable fs0 p w -> pid w = p.
Proof.
  intros Hr. apply (star_invariant wstep (fun x => pid x = p)) with (initial_world fs0 p);
    [| exact Hr | reflexivity].
  intros a b Ha [[ok|s io|ev] He]; cbn in He.
  - injection He as <-. unfold main_step.
    destruct (exited a); [auto|]. destruct (pc a); [| | destruct ok | | | |]; auto.
  - injection He as <-. unfold deliver, cleanup.
    destruct (exited a); [auto|]. destruct (handler_installed s (pc a)); [|auto].
    destruct s; [destruct (toggle_recording io (ctl a)) as [[] ?] | destruct (pid_file (fs a)) ..]; auto.
  - unfold thread_event in He. destruct (exited a); [discriminate|].
    destruct ev; [discriminate | |];
      destruct (run_event _ (ctl a)) as [[[?|?] ?]|]; try discriminate;
      injection He as <-; auto.
Qed.
End WorldFacts.

Section ProcessFacts.
Context `{Backend}.

(** While the process lives, its controller globals are reachable by
    the controller's own step relation. *)
Lemma wreachable_ctl fs0 p w :
  wreachable fs0 p w -> exited w = None -> Controller.reachable (ctl w).
Proof.
  intros Hr. unfold wreachable in Hr.
  apply (star_invariant wstep (fun x => exited x = None -> Controller.reachable (ctl x)))
    with (initial_world fs0 p); [| exact Hr | intros _; apply star_refl].
  intros a b IH [[ok|s io|ev] He]; cbn in He.
  - injection He as <-. unfold main_step.
    destruct (exited a) eqn:Hx; [intros Hn; congruence|].
    destruct (pc a); [| | destruct ok | | | |]; simpl_world; intros Hn;
      first [discriminate | apply IH; reflexivity].
  - injection He as <-. unfold deliver, cleanup.
    destruct (exited a) eqn:Hx; [intros Hn; congruence|].
    destruct (handler_installed s (pc a));
      [| simpl_world; intros Hn; discriminate].
    destruct s; [| destruct (pid_file (fs a)); simpl_world; intros Hn; discriminate ..].
    destruct (toggle_recording io (ctl a)) as [[[]|e] c'] eqn:Ht;
      simpl_world; intros Hn; [|discriminate].
    apply star_right with (ctl a); [apply IH; reflexivity|].
    exists (Toggle io). constructor. cbn [run_event]. now rewrite Ht.
  - unfold thread_event in He. destruct (exited a) eqn:Hx; [discriminate|].
    destruct ev as [io|x|i]; [discriminate| |];
      destruct (run_event _ (ctl a)) as [[[[]|e] c']|] eqn:Hrun; try discriminate;
      injection He as <-; simpl_world; intros _;
      apply star_right with (ctl a); [apply IH; reflexivity | eexists; constructor; exact Hrun| apply IH; reflexivity | eexists; constructor; exact Hrun].
Qed.

(** C16: Once [main] has written the PID file, the file holds
    [str(pid)] for as long as the process lives and after any ending
    except [cleanup], which removes it. *)
Theorem daemon_pid_file_invariant fs0 p w :
  wreachable fs0 p w -> (2 <= pc_index (pc w))%nat ->
  pid_file (fs w) = match exited w with
                    | Some (ExitCode 0) => None
                    | _ => Some (PyStr.str_of_Z p)
                    end.
Proof.
  intros Hr Hpc. rewrite <- (wreachable_pid w fs0 p Hr).
  apply (proj1 (wreachable_winv fs0 p w Hr) Hpc).
Qed.

(** C12: An exception raised by [toggle_recording] (a PortAudio error
    in [start_recording] or [stop_recording]) is not contained: it is
    raised in the main loop, the daemon exits with status 1, and its PID
    file stays behind naming a dead process.  (The specification says
    the daemon stays alive.) *)
Theorem toggle_exception_kills_daemon fs0 p w io e c' :
  wreachable fs0 p w -> exited w = None -> handler_installed SIGUSR1 (pc w) = true ->
  toggle_recording io (ctl w) = (Exc e, c') ->
  exited (deliver SIGUSR1 io w) = Some (ExitCode 1)
  /\ pid_file (fs (deliver SIGUSR1 io w)) = Some (PyStr.str_of_Z p).
Proof.
  intros Hr Hx Hh Ht. unfold deliver. rewrite Hx, Hh, Ht. simpl_world.
  split; [reflexivity|].
  rewrite <- (wreachable_pid w fs0 p Hr).
  destruct (wreachable_winv fs0 p w Hr) as [Hf _].
  unfold pid_file_expected in Hf. rewrite Hx in Hf. apply Hf.
  unfold handler_installed in Hh. apply Nat.leb_le in Hh. lia.
Qed.

(** C18: A toggle that arrives after the PID file is written but before
    the SIGUSR1 handler is installed (while the model loads) kills the
    daemon with the signal's default action and leaves a stale PID file. *)
Theorem early_toggle_kills_daemon fs0 p w io :
  wreachable fs0 p w -> exited w = None -> (pc w = AtLoad \/ pc w = AtInstallUSR1) ->
  exited (deliver SIGUSR1 io w) = Some (KilledBy SIGUSR1)
  /\ pid_file (fs (deliver SIGUSR1 io w)) = Some (PyStr.str_of_Z p).
Proof.
  intros Hr Hx Hpc.
  destruct (wreachable_winv fs0 p w Hr) as [Hf _].
  rewrite <- (wreachable_pid w fs0 p Hr).
  unfold pid_file_expected in Hf. rewrite Hx in Hf.
  unfold deliver. rewrite Hx.
  destruct Hpc as [Hpc|Hpc]; rewrite Hpc in *; cbn; split; auto; apply Hf; cbn; lia.
Qed.

(** C17: SIGINT or SIGTERM, once [main] has installed its handler,
    removes the PID file and ends the daemon with status 0. *)
Theorem shutdown_removes_pid_file w s io :
  exited w = None -> (s = SIGINT \/ s = SIGTERM) -> handler_installed s (pc w) = true ->
  exited (deliver s io w) = Some (ExitCode 0) /\ pid_file (fs (deliver s io w)) = None.
Proof.
  intros Hx Hs Hh. unfold deliver, cleanup. rewrite Hx, Hh.
  destruct Hs as [-> | ->]; destruct (pid_file (fs w)) eqn:Hp; simpl_world; auto.
Qed.
End ProcessFacts.

(** ** Concrete runs *)

Lemma run_wevents_star `{Backend} es w w' :
  run_wevents es w = Some w' -> star wstep w w'.
Proof.
  revert w; induction es as [|e rest IH]; intros w Hrun; cbn in Hrun.
  - injection Hrun as <-. apply star_refl.
  - destruct (run_wevent e w) as [w1|] eqn:He; [|discriminate].
    apply star_step with w1; [exists e; exact He | now apply IH].
Qed.

Module Examples.
#[local] Existing Instance Controller.Examples.demo_backend.

Definition fresh_fs : FS := mkFS false None.

Definition boot : list wevent := repeat (MainStep true) 6.

Definition loading_world : World :=
  mkWorld (mkFS true (Some "4242"%string)) 4242 AtLoad Controller.initial None.

Definition running_world : World :=
  mkWorld (mkFS true (Some "4242"%string)) 4242 Looping Controller.initial None.

Definition recording_world : World :=
  set_ctl Controller.Examples.recording_daemon running_world.

Lemma loading_world_reachable : wreachable fresh_fs 4242 loading_world.
Proof.
  apply (run_wevents_star [MainStep true; MainStep true]). vm_compute. reflexivity.
Qed.

Lemma running_world_reachable : wreachable fresh_fs 4242 running_world.
Proof. apply (run_wevents_star boot). vm_compute. reflexivity. Qed.

Lemma recording_world_reachable : wreachable fresh_fs 4242 recording_world.
Proof.
  apply (run_wevents_star (boot ++ [Signal SIGUSR1 dev_ok])). vm_compute. reflexivity.
Qed.

Lemma daemon_pid_file_invariant_witness :
  wreachable fresh_fs 4242 running_world /\ (2 <= pc_index (pc running_world))%nat /\
  pid_file (fs running_world) = Some (PyStr.str_of_Z 4242).
Proof.
  split; [exact running_world_reachable | split; [cbn; lia|]].
  apply (daemon_pid_file_invariant fresh_fs 4242 running_world running_world_reachable).
  cbn; lia.
Defined.

Lemma toggle_exception_kills_daemon_witness :
  let io := Controller.Examples.stop_fails in
  wreachable fresh_fs 4242 recording_world /\ exited recording_world = None /\
  handler_installed SIGUSR1 (pc recording_world) = true /\
  exited (deliver SIGUSR1 io recording_world) = Some (ExitCode 1)
  /\ pid_file (fs (deliver SIGUSR1 io recording_world)) = Some (PyStr.str_of_Z 4242).
Proof.
  intros io. split; [exact recording_world_reachable | split; [reflexivity | split; [reflexivity|]]].
  apply (toggle_exception_kills_daemon fresh_fs 4242 recording_world io PortAudioError
           (snd (toggle_recording io (ctl recording_world))) recording_world_reachable);
    reflexivity.
Defined.

Lemma early_toggle_kills_daemon_witness :
  wreachable fresh_fs 4242 loading_world /\ exited loading_world = None /\
  exited (deliver SIGUSR1 dev_ok loading_world) = Some (KilledBy SIGUSR1)
  /\ pid_file (fs (deliver SIGUSR1 dev_ok loading_world)) = Some (PyStr.str_of_Z 4242).
Proof.
  split; [exact loading_world_reachable | split; [reflexivity|]].
  apply (early_toggle_kills_daemon fresh_fs 4242 loading_world dev_ok loading_world_reachable);
    [reflexivity | left; reflexivity].
Defined.

Lemma shutdown_removes_pid_file_witness :
  exited running_world = None /\ handler_installed SIGTERM (pc running_world) = true /\
  exited (deliver SIGTERM dev_ok running_world) = Some (ExitCode 0)
  /\ pid_file (fs (deliver SIGTERM dev_ok running_world)) = None.
Proof.
  split; [reflexivity | split; [reflexivity|]].
  apply shutdown_removes_pid_file; [reflexivity | right; reflexivity | reflexivity].
Defined.
End Examples.

End DaemonProc.
