(* ===== verification/Trigger.v ===== *)
(** * The trigger: src/talktype_toggle.py

    The script creates [~/.cache] when it is loaded (lines 11-12), then
    [send_signal] (lines 14-31) reads [~/.cache/talktype_daemon.pid],
    parses it with [int(text.strip())] and calls [os.kill(pid, SIGUSR1)];
    a missing file ends it with [sys.exit(1)], a [ProcessLookupError]
    removes the file and ends it with [sys.exit(1)]; any other exception
    escapes and ends it with status 1 after a traceback.

    [os.kill] follows POSIX [kill(2)]: a positive PID names one process,
    0 the caller's process group (the caller included), -1 every process
    the caller may signal, and a smaller PID the process group [-pid];
    a PID outside the 32-bit [pid_t] raises [OverflowError] before any
    system call.  The processes the trigger can see are the record
    [Procs].

    The module [System] runs the trigger against the daemon process of
    [Daemon.v]: the two programs share the PID file, and a SIGUSR1 that
    reaches the daemon's PID is delivered by [DaemonProc.deliver]. *)

From Stdlib Require Import List String ZArith Lia.
From S2P Require Import Prelude PyText Controller Daemon.
Import ListNotations.

Module Trigger.

Import DaemonProc.

Local Open Scope Z_scope.

(** ** Data *)

(** What one [os.kill(pid, SIGUSR1)] reaches. *)
Inductive kill_target : Type :=
| OneProcess (p : Z)   (** [pid > 0] *)
| OwnGroup             (** [pid = 0]: the caller's process group, the caller included *)
| EveryProcess         (** [pid = -1]: every process the caller may signal but itself *)
| Group (g : Z).       (** [pid < -1]: the process group [-pid] *)

Inductive proc_entry : Type := NoProcess | OwnProcess | ForeignProcess.

(** The process table as the trigger's user sees it. *)
Record Procs : Type := mkProcs {
  proc_at : Z -> proc_entry;
  group_exists : Z -> bool
}.

(** [pid_t] is a 32-bit signed integer. *)
Definition PID_T_MIN : Z := - 2 ^ 31.
Definition PID_T_MAX : Z := 2 ^ 31 - 1.

(** The trigger's view of the world: the file system and the signals it
    has sent, in order. *)
Record TState : Type := mkT { tfs : FS; sent : list kill_target }.

(** ** Operations *)

(** [os.kill(pid, signal.SIGUSR1)] *)
Definition os_kill (procs : Procs) (p : Z) : outcome kill_target :=
  if ((p <? PID_T_MIN) || (PID_T_MAX <? p))%bool then Exc OverflowError
  else if 0 <? p then
    match proc_at procs p with
    | NoProcess => Exc ProcessLookupError
    | ForeignProcess => Exc PermissionError
    | OwnProcess => Ok (OneProcess p)
    end
  else if p =? 0 then Ok OwnGroup
  else if p =? -1 then Ok EveryProcess
  else if group_exists procs (- p) then Ok (Group (- p)) else Exc ProcessLookupError.

Definition is_ProcessLookupError (e : pyexc) : bool :=
  match e with ProcessLookupError => true | _ => false end.

Local Open Scope py_scope.

(** [STATE_FILE.parent.mkdir(exist_ok=True)] at load time. *)
Definition module_init : py TState unit :=
  py_modify (fun t => mkT (mkFS true (pid_file (tfs t))) (sent t)).

Definition send_signal (procs : Procs) : py TState unit :=
  f <- py_gets (fun t => pid_file (tfs t)) ;;
  match f with
  | None => py_raise (SystemExit 1)
  | Some text =>
      match PyStr.int_of_string (PyStr.strip text) with
      | Exc e => py_raise e
      | Ok p =>
          py_catch is_ProcessLookupError
            (match os_kill procs p with
             | Ok target => py_modify (fun t => mkT (tfs t) (sent t ++ [target]))
             | Exc e => py_raise e
             end)
            (fun _ =>
               py_modify (fun t => mkT (mkFS (cache_dir (tfs t)) None) (sent t)) ;;
               py_raise (SystemExit 1))
      end
  end.

(** How the script ends: normally (0), by [sys.exit(c)], by an uncaught
    exception (1); or killed by its own SIGUSR1 when it signalled its
    own process group. *)
Definition exit_of (r : outcome unit) : exit_status :=
  match r with
  | Ok _ => ExitCode 0
  | Exc (SystemExit c) => ExitCode c
  | Exc KeyboardInterrupt => KilledBy SIGINT
  | Exc _ => ExitCode 1
  end.

Definition hits_self (t : kill_target) : bool :=
  match t with OwnGroup => true | _ => false end.

(** [python talktype_toggle.py] *)
Definition run_trigger (procs : Procs) (t : TState) : exit_status * TState :=
  let (r, t') := (module_init ;; send_signal procs) t in
  (if existsb hits_self (sent t') then KilledBy SIGUSR1 else exit_of r, t').

(** ** Behaviour of the trigger *)

Lemma os_kill_error procs p e :
  os_kill procs p = Exc e ->
  e = OverflowError \/ e = ProcessLookupError \/ e = PermissionError.
Proof.
  unfold os_kill. intros H.
  destruct ((p <? PID_T_MIN) || (PID_T_MAX <? p))%bool; [inversion H; auto|].
  destruct (0 <? p); [destruct (proc_at procs p); inversion H; auto|].
  destruct (p =? 0); [discriminate|]. destruct (p =? -1); [discriminate|].
  destruct (group_exists procs (- p)); inversion H; auto.
Qed.

Lemma os_kill_positive procs p :
  0 < p <= PID_T_MAX ->
  os_kill procs p = match proc_at procs p with
                    | NoProcess => Exc ProcessLookupError
                    | ForeignProcess => Exc PermissionError
                    | OwnProcess => Ok (OneProcess p)
                    end.
Proof.
  intros Hp. unfold os_kill, PID_T_MIN, PID_T_MAX in *.
  destruct (Z.ltb_spec p (- 2 ^ 31)), (Z.ltb_spec (2 ^ 31 - 1) p); try lia.
  destruct (Z.ltb_spec 0 p); [reflexivity | lia].
Qed.

Ltac run_trigger_simpl :=
  unfold run_trigger, module_init, send_signal; py_simpl; cbn [tfs sent pid_file cache_dir].

(** A run of the script on a PID file that parses to [p]. *)
Lemma run_trigger_parsed procs fs0 text p :
  pid_file fs0 = Some text -> PyStr.int_of_string (PyStr.strip text) = Ok p ->
  run_trigger procs (mkT fs0 [])
  = match os_kill procs p with
    | Ok target => (if hits_self target then KilledBy SIGUSR1 else ExitCode 0,
                    mkT (mkFS true (Some text)) [target])
    | Exc e =>
        if is_ProcessLookupError e then (ExitCode 1, mkT (mkFS true None) [])
        else (exit_of (Exc e), mkT (mkFS true (Some text)) [])
    end.
Proof.
  intros Hf Hp. run_trigger_simpl. rewrite Hf, Hp.
  destruct (os_kill procs p) as [target|e]; cbn; [destruct target; reflexivity|].
  destruct (is_ProcessLookupError e); reflexivity.
Qed.

(** C13: Run with no PID file, the trigger sends no signal and exits
    with status 1. *)
Theorem trigger_no_pid_file procs fs0 :
  pid_file fs0 = None ->
  run_trigger procs (mkT fs0 []) = (ExitCode 1, mkT (mkFS true None) []).
Proof. intros Hf. run_trigger_simpl. now rewrite Hf. Qed.

(** C14: Run with a PID file naming a process that no longer exists, the
    trigger removes the file, sends nothing and exits with status 1. *)
Theorem trigger_dead_daemon procs fs0 text p :
  pid_file fs0 = Some text -> PyStr.int_of_string (PyStr.strip text) = Ok p ->
  0 < p <= PID_T_MAX -> proc_at procs p = NoProcess ->
  run_trigger procs (mkT fs0 []) = (ExitCode 1, mkT (mkFS true None) []).
Proof.
  intros Hf Hp Hr Hn. rewrite (run_trigger_parsed procs fs0 text p Hf Hp).
  rewrite (os_kill_positive procs p Hr), Hn. reflexivity.
Qed.

(** C29: A PID file that [int] rejects, a PID outside [pid_t], or a PID
    of another user's process ends the trigger with an uncaught
    exception (status 1): no signal is sent and the file is kept. *)
Theorem trigger_uncaught_errors_keep_file procs fs0 text :
  pid_file fs0 = Some text ->
  (exists e, PyStr.int_of_string (PyStr.strip text) = Exc e)
  \/ (exists p e, PyStr.int_of_string (PyStr.strip text) = Ok p
                  /\ os_kill procs p = Exc e /\ e <> ProcessLookupError) ->
  run_trigger procs (mkT fs0 []) = (ExitCode 1, mkT (mkFS true (Some text)) []).
Proof.
  intros Hf [[e Hp] | (p & e & Hp & Hk & Hne)].
  - run_trigger_simpl. rewrite Hf, Hp.
    rewrite (PyStr.int_of_string_error _ _ Hp). reflexivity.
  - rewrite (run_trigger_parsed procs fs0 text p Hf Hp), Hk.
    destruct (os_kill_error procs p e Hk) as [-> | [-> | ->]];
      [reflexivity | congruence | reflexivity].
Qed.


Module Examples.
(** The daemon runs as PID 4242; PID 1 belongs to another user. *)
Definition demo_procs : Procs :=
  mkProcs (fun q => if q =? 4242 then OwnProcess
                    else if q =? 1 then ForeignProcess else NoProcess)
          (fun _ => false).

Lemma trigger_no_pid_file_witness :
  pid_file (mkFS false None) = None /\
  run_trigger demo_procs (mkT (mkFS false None) []) = (ExitCode 1, mkT (mkFS true None) []).
Proof. split; [reflexivity|]. apply trigger_no_pid_file. reflexivity. Defined.

Lemma trigger_dead_daemon_witness :
  let fs0 := mkFS true (Some "4243"%string) in
  PyStr.int_of_string (PyStr.strip "4243") = Ok 4243 /\
  proc_at demo_procs 4243 = NoProcess /\
  run_trigger demo_procs (mkT fs0 []) = (ExitCode 1, mkT (mkFS true None) []).
Proof.
  intros fs0. split; [reflexivity | split; [reflexivity|]].
  apply (trigger_dead_daemon demo_procs fs0 "4243" 4243); try reflexivity.
  unfold PID_T_MAX; lia.
Defined.

Lemma trigger_uncaught_errors_keep_file_witness :
  let text := "99999999999"%string in
  os_kill demo_procs 99999999999 = Exc OverflowError /\
  run_trigger demo_procs (mkT (mkFS true (Some text)) [])
  = (ExitCode 1, mkT (mkFS true (Some text)) []).
Proof.
  intros text. split; [reflexivity|].
  apply trigger_uncaught_errors_keep_file; [reflexivity|].
  right. exists 99999999999, OverflowError. split; [reflexivity | split; [reflexivity | discriminate]].
Defined.
End Examples.

End Trigger.
