(* ===== verification/System.v ===== *)
(** * The two programs together: one press of the keyboard shortcut

    The GNOME shortcut runs src/talktype_toggle.py, which reads the PID
    file that src/talktype_daemon.py wrote and signals that PID.
    [press_toggle] runs the trigger of [Trigger.v] against the daemon
    process of [Daemon.v]: the trigger sees the daemon as its own living
    process while it runs, both programs share the file system, and a
    SIGUSR1 that reaches the daemon's PID (directly, or through
    [kill(-1)]) is delivered by [DaemonProc.deliver].  A signal to a
    process group is not delivered to the daemon, which runs in a group
    of its own. *)

From Stdlib Require Import List String ZArith Lia.
From S2P Require Import Prelude PyText Controller Daemon Trigger.
Import ListNotations.

Module System.

Import Controller DaemonProc Trigger.

Local Open Scope Z_scope.

(** The process table with the daemon in it. *)
Definition procs_with_daemon (w : World) (others : Procs) : Procs :=
  mkProcs (fun q => match exited w with
                    | None => if q =? pid w then OwnProcess else proc_at others q
                    | Some _ => proc_at others q
                    end)
          (group_exists others).

Definition reaches_daemon (w : World) (t : kill_target) : bool :=
  match t with
  | OneProcess q => q =? pid w
  | EveryProcess => true
  | _ => false
  end.

Section Press.
Context `{Backend}.

(** The trigger's exit status and the daemon world after it. *)
Definition press_toggle (others : Procs) (io : DevIO) (w : World) : exit_status * World :=
  let (st, t') := run_trigger (procs_with_daemon w others) (mkT (fs w) []) in
  let w1 := set_fs (tfs t') w in
  (st, if existsb (reaches_daemon w) (sent t') then deliver SIGUSR1 io w1 else w1).

Lemma reachable_pid_file fs0 p w :
  wreachable fs0 p w -> (2 <= pc_index (pc w))%nat ->
  exited w <> Some (ExitCode 0) -> pid_file (fs w) = Some (PyStr.str_of_Z p).
Proof.
  intros Hr Hpc Hx. destruct (wreachable_winv fs0 p w Hr) as [Hf _].
  rewrite (Hf Hpc). unfold pid_file_expected.
  rewrite (wreachable_pid w fs0 p Hr).
  destruct (exited w) as [[[|c|c]|s]|]; congruence.
Qed.

(** C11: Pressing the shortcut while the daemon lives (its PID file
    written) delivers exactly one SIGUSR1 to the daemon, the PID the
    daemon wrote as [str(pid)] being the one the trigger parses and
    signals; the trigger exits with status 0. *)
Theorem press_toggles_running_daemon fs0 p w others io :
  wreachable fs0 p w -> exited w = None -> (2 <= pc_index (pc w))%nat ->
  0 < p <= PID_T_MAX ->
  press_toggle others io w
  = (ExitCode 0, deliver SIGUSR1 io (set_fs (mkFS true (Some (PyStr.str_of_Z p))) w)).
Proof.
  intros Hr Hx Hpc Hp.
  pose proof (reachable_pid_file fs0 p w Hr Hpc ltac:(congruence)) as Hf.
  pose proof (wreachable_pid w fs0 p Hr) as Hpid.
  unfold press_toggle.
  rewrite (run_trigger_parsed _ (fs w) _ p Hf (PyStr.int_of_str_roundtrip p)).
  rewrite (os_kill_positive _ p Hp). cbn [proc_at procs_with_daemon].
  rewrite Hx, Hpid, Z.eqb_refl. cbn. now rewrite Hpid, Z.eqb_refl.
Qed.

(** C15: After the daemon has died by any ending other than [cleanup]
    (a device exception, a toggle during model load, a failed model
    load), the next press finds the stale PID file, removes it, signals
    nothing and exits with status 1, provided the PID has not been
    reused. *)
Theorem press_after_daemon_death fs0 p w others io st :
  wreachable fs0 p w -> exited w = Some st -> st <> ExitCode 0 ->
  (2 <= pc_index (pc w))%nat -> 0 < p <= PID_T_MAX -> proc_at others p = NoProcess ->
  press_toggle others io w = (ExitCode 1, set_fs (mkFS true None) w).
Proof.
  intros Hr Hx Hst Hpc Hp Hn.
  pose proof (reachable_pid_file fs0 p w Hr Hpc ltac:(congruence)) as Hf.
  unfold press_toggle.
  rewrite (run_trigger_parsed _ (fs w) _ p Hf (PyStr.int_of_str_roundtrip p)).
  rewrite (os_kill_positive _ p Hp). cbn [proc_at procs_with_daemon].
  rewrite Hx, Hn. reflexivity.
Qed.
End Press.

Module Examples.
#[local] Existing Instance Controller.Examples.demo_backend.

Definition crashed_world : World :=
  deliver SIGUSR1 Controller.Examples.stop_fails DaemonProc.Examples.recording_world.

Lemma crashed_world_reachable : wreachable DaemonProc.Examples.fresh_fs 4242 crashed_world.
Proof.
  apply (run_wevents_star (DaemonProc.Examples.boot ++
           [Signal SIGUSR1 dev_ok; Signal SIGUSR1 Controller.Examples.stop_fails])).
  vm_compute. reflexivity.
Qed.

Lemma press_toggles_running_daemon_witness :
  let w := DaemonProc.Examples.running_world in
  wreachable DaemonProc.Examples.fresh_fs 4242 w /\ exited w = None /\
  press_toggle Trigger.Examples.demo_procs dev_ok w
  = (ExitCode 0, deliver SIGUSR1 dev_ok (set_fs (mkFS true (Some (PyStr.str_of_Z 4242))) w)).
Proof.
  intros w. split; [exact DaemonProc.Examples.running_world_reachable | split; [reflexivity|]].
  apply (press_toggles_running_daemon DaemonProc.Examples.fresh_fs 4242);
    [exact DaemonProc.Examples.running_world_reachable | reflexivity | cbn; lia
    | unfold PID_T_MAX; lia].
Defined.

Lemma press_after_daemon_death_witness :
  wreachable DaemonProc.Examples.fresh_fs 4242 crashed_world /\
  exited crashed_world = Some (ExitCode 1) /\
  press_toggle (mkProcs (fun _ => NoProcess) (fun _ => false)) dev_ok crashed_world
  = (ExitCode 1, set_fs (mkFS true None) crashed_world).
Proof.
  split; [exact crashed_world_reachable | split; [reflexivity|]].
  apply (press_after_daemon_death DaemonProc.Examples.fresh_fs 4242 crashed_world _ dev_ok
           (ExitCode 1) crashed_world_reachable);
    [reflexivity | discriminate | cbn; lia | unfold PID_T_MAX; lia | reflexivity].
Defined.
End Examples.

End System.
