(* ===== verification/Concurrency.v ===== *)
(** * Signal handlers, the transcription thread and [state_lock]

    src/talktype_daemon.py, lines 103-139.  CPython runs a signal
    handler in the main thread between two bytecodes of whatever the
    main thread is running, the code of another handler included, and
    also while the main thread waits in [time.sleep] or in
    [Lock.acquire].  The handlers therefore nest: the main thread is a
    stack of [toggle_recording] frames.  Each frame acquires
    [state_lock] (a non-reentrant [threading.Lock]), runs its critical
    section (the state test and assignment, [start_recording] or
    [stop_recording] and the thread start), and releases the lock.  The
    transcription thread runs [transcribe] without the lock, then takes
    the lock for its [finally] ([state = State.IDLE]) and releases it.

    [Controller.v] runs each handler as one atomic step.  Here the steps
    are the lock operations and the critical sections, interleaved in
    every order, with a new handler frame pushed whenever a SIGUSR1
    arrives.  The controller state is [Controller.State]; the work inside
    the critical sections is abstracted to its effect on it. *)

From Stdlib Require Import List ZArith Lia.
From S2P Require Import Prelude Controller.
Import ListNotations.

Module Concurrency.

Import Controller.

(** ** Data *)

(** Where a [toggle_recording] frame of the main thread is. *)
Inductive frame : Type :=
| FAcquire    (** at [with state_lock:] *)
| FCritical   (** holding the lock, before the state test *)
| FRelease.   (** holding the lock, critical section done *)

(** Where the transcription thread is. *)
Inductive wpc : Type :=
| WTranscribe (** [transcribe(audio)], clipboard and cues, no lock *)
| WAcquire    (** at [with state_lock:] in the [finally] *)
| WCritical   (** holding the lock, before [state = State.IDLE] *)
| WRelease.   (** holding the lock, after it *)

Inductive owner : Type := MainThread | WorkerThread.

Record Conc : Type := mkC {
  stack : list frame;      (** the main thread's handler frames, innermost first *)
  lock : option owner;     (** [state_lock] *)
  worker : option wpc;     (** the transcription thread, if alive *)
  cstate : State           (** [state] *)
}.

Definition conc_initial : Conc := mkC [] None None IDLE.

(** The state assignment of [toggle_recording]'s critical section. *)
Definition toggle_state (s : State) : State :=
  match s with
  | IDLE => RECORDING
  | RECORDING => TRANSCRIBING
  | TRANSCRIBING => TRANSCRIBING
  end.

(** ** Steps *)

Inductive cstep : Conc -> Conc -> Prop :=
| c_signal st l w s :
    cstep (mkC st l w s) (mkC (FAcquire :: st) l w s)
| c_acquire rest w s :
    cstep (mkC (FAcquire :: rest) None w s) (mkC (FCritical :: rest) (Some MainThread) w s)
| c_critical rest l w s :
    cstep (mkC (FCritical :: rest) l w s)
          (mkC (FRelease :: rest) l
               (match s with RECORDING => Some WTranscribe | _ => w end)
               (toggle_state s))
| c_release rest l w s :
    cstep (mkC (FRelease :: rest) l w s) (mkC rest None w s)
| w_transcribe st l s :
    cstep (mkC st l (Some WTranscribe) s) (mkC st l (Some WAcquire) s)
| w_acquire st s :
    cstep (mkC st None (Some WAcquire) s) (mkC st (Some WorkerThread) (Some WCritical) s)
| w_idle st l s :
    cstep (mkC st l (Some WCritical) s) (mkC st l (Some WRelease) IDLE)
| w_release st l s :
    cstep (mkC st l (Some WRelease) s) (mkC st None None s).

Definition creachable (c : Conc) : Prop := star cstep conc_initial c.

(** ** The invariant of the lock *)

Definition holds_lock (f : frame) : bool :=
  match f with FAcquire => false | _ => true end.

(** Main-thread frames past [with state_lock:]. *)
Definition holding (st : list frame) : nat := length (filter holds_lock st).
Arguments holding : simpl never.

Definition worker_holds (w : option wpc) : bool :=
  match w with Some WCritical | Some WRelease => true | _ => false end.

(** Who holds [state_lock], against the frames and the thread inside the
    critical section: one main-thread frame at most, and never both. *)
Definition lock_ok (l : option owner) (n : nat) (w : option wpc) : Prop :=
  match l with
  | None => n = 0%nat /\ worker_holds w = false
  | Some MainThread => n = 1%nat /\ worker_holds w = false
  | Some WorkerThread => n = 0%nat /\ worker_holds w = true
  end.

(** [state] is TRANSCRIBING exactly while the transcription thread has
    not yet reset it to IDLE. *)
Definition state_worker (s : State) (w : option wpc) : Prop :=
  match w with
  | None => s <> TRANSCRIBING
  | Some WRelease => s = IDLE
  | Some _ => s = TRANSCRIBING
  end.

Definition cinv (c : Conc) : Prop :=
  lock_ok (lock c) (holding (stack c)) (worker c) /\ state_worker (cstate c) (worker c).

Lemma cinv_initial : cinv conc_initial.
Proof. cbn. repeat split; discriminate. Qed.

Lemma holding_cons f st :
  holding (f :: st) = ((if holds_lock f then 1 else 0) + holding st)%nat.
Proof. unfold holding. cbn. destruct (holds_lock f); reflexivity. Qed.

Lemma cinv_step c c' : cinv c -> cstep c c' -> cinv c'.
Proof.
  unfold cinv. intros Hc Hs.
  inversion Hs; subst; cbn [lock stack worker cstate] in *;
    rewrite ?holding_cons in *;
    repeat match goal with
           | o : option owner |- _ => destruct o as [[]|]
           | o : option wpc |- _ => destruct o as [[]|]
           | s : State |- _ => destruct s
           end;
    cbn in *; intuition (try lia; try discriminate; try congruence).
Qed.

Lemma creachable_cinv c : creachable c -> cinv c.
Proof.
  intros H. exact (star_invariant cstep cinv cinv_step _ _ H cinv_initial).
Qed.

(** A configuration in which the main thread is stuck for good: a
    handler frame holds [state_lock] in its critical section and is
    interrupted by nested handlers that all wait for the same lock. *)
Definition frozen (c : Conc) : Prop :=
  exists k, stack c = repeat FAcquire (S k) ++ [FCritical]
            /\ lock c = Some MainThread /\ worker c = None /\ cstate c = IDLE.

(** The first press's handler has taken the lock and a second SIGUSR1
    interrupts it before its critical section. *)
Definition deadlocked : Conc := mkC [FAcquire; FCritical] (Some MainThread) None IDLE.

Lemma deadlocked_reachable : creachable deadlocked.
Proof.
  unfold creachable, deadlocked, conc_initial.
  eapply star_step; [apply c_signal|].
  eapply star_step; [apply c_acquire|].
  eapply star_step; [apply c_signal|]. apply star_refl.
Qed.

Lemma frozen_step c c' : frozen c -> cstep c c' -> frozen c'.
Proof.
  intros (k & Hst & Hl & Hw & Hs) H.
  inversion H; subst; cbn in *; try discriminate; try (destruct k; discriminate).
  exists (S k). cbn. rewrite Hst. auto.
Qed.

Lemma creachable_step c c' : creachable c -> cstep c c' -> creachable c'.
Proof. apply star_right. Qed.

(** A step of the main thread's frames or of the transcription thread
    that pushes no new handler frame. *)
Definition progress_step (c c' : Conc) : Prop :=
  cstep c c' /\ (length (stack c') <= length (stack c))%nat.

(** C23: [state_lock] excludes: in every reachable configuration at most
    one [toggle_recording] frame of the main thread is inside its
    critical section, and never while the transcription thread is inside
    its [finally] block; the lock's owner is the one inside. *)
Theorem state_lock_mutual_exclusion c :
  creachable c ->
  (holding (stack c) <= 1)%nat
  /\ (holding (stack c) = 0%nat \/ worker_holds (worker c) = false)
  /\ (lock c = Some MainThread <-> holding (stack c) = 1%nat)
  /\ (lock c = Some WorkerThread <-> worker_holds (worker c) = true).
Proof.
  intros H. destruct (creachable_cinv c H) as [Hl _]. unfold lock_ok in Hl.
  destruct (lock c) as [[]|]; intuition (try lia; try discriminate; try congruence).
Qed.

(** C24: The [RECORDING] branch of [toggle_recording] starts a
    transcription thread only when no earlier transcription thread is
    still alive, and [state] is TRANSCRIBING exactly while one is. *)
Theorem single_transcription_thread_interleaved c rest :
  creachable c ->
  (stack c = FCritical :: rest -> cstate c = RECORDING -> worker c = None)
  /\ (cstate c = TRANSCRIBING <->
      worker c = Some WTranscribe \/ worker c = Some WAcquire \/ worker c = Some WCritical).
Proof.
  intros H. destruct (creachable_cinv c H) as [_ Hs]. unfold state_worker in Hs.
  destruct (worker c) as [[]|]; repeat split; intros;
    try reflexivity; intuition (try discriminate; try congruence).
Qed.

(** C25: Without nested handlers the program never blocks: when the main
    thread runs at most one [toggle_recording] frame, any frame or
    transcription thread that is alive can take a step. *)
Theorem no_deadlock_without_nesting c :
  creachable c -> (length (stack c) <= 1)%nat -> stack c <> [] \/ worker c <> None ->
  exists c', progress_step c c'.
Proof.
  intros H Hlen Halive. destruct (creachable_cinv c H) as [Hl Hs].
  destruct c as [st l w s]; cbn in *. unfold progress_step.
  destruct st as [|f [|g st]]; cbn in Hlen; [|destruct f|lia];
    destruct l as [[]|]; destruct w as [[]|]; cbn in Hl;
    rewrite ?holding_cons in Hl; cbn in Hl;
    try (destruct Halive as [Halive|Halive]; contradiction Halive; reflexivity);
    try (intuition (try lia; try discriminate); fail);
    eexists; (split; [constructor | cbn; lia]).
Qed.

(** C22: Two SIGUSR1 in quick succession deadlock the daemon: when the
    second arrives while the first handler holds the non-reentrant
    [state_lock], the nested handler waits for the lock in the main
    thread, which is the lock's owner.  The configuration is reachable,
    and from it no sequence of steps releases the lock, returns from a
    handler or changes [state]; further presses only stack up. *)
Theorem nested_toggle_deadlocks :
  creachable deadlocked /\ forall c, star cstep deadlocked c -> frozen c.
Proof.
  split; [exact deadlocked_reachable|].
  intros c H. apply (star_invariant cstep frozen frozen_step _ _ H).
  exists 0%nat. repeat split.
Qed.

Module Examples.

(** The first press: the handler has taken the lock. *)
Definition first_press : Conc := mkC [FCritical] (Some MainThread) None IDLE.

(** The second press: the first handler returned with [state] RECORDING
    and the second has taken the lock. *)
Definition second_press : Conc := mkC [FCritical] (Some MainThread) None RECORDING.

Lemma first_press_reachable : creachable first_press.
Proof.
  eapply creachable_step; [eapply creachable_step; [apply star_refl|]|]; constructor.
Qed.

Lemma second_press_reachable : creachable second_press.
Proof.
  eapply creachable_step; [eapply creachable_step|]; [|constructor|constructor].
  eapply creachable_step; [eapply creachable_step|];
    [exact first_press_reachable | constructor | constructor].
Qed.

Lemma state_lock_mutual_exclusion_witness :
  creachable first_press /\ (holding (stack first_press) <= 1)%nat
  /\ lock first_press = Some MainThread.
Proof.
  split; [exact first_press_reachable|].
  destruct (state_lock_mutual_exclusion first_press first_press_reachable)
    as (H1 & _ & [_ H3] & _).
  split; [exact H1 | apply H3; reflexivity].
Defined.

Lemma single_transcription_thread_interleaved_witness :
  creachable second_press /\ worker second_press = None.
Proof.
  split; [exact second_press_reachable|].
  apply (proj1 (single_transcription_thread_interleaved second_press []
                  second_press_reachable)); reflexivity.
Defined.

Lemma no_deadlock_without_nesting_witness :
  creachable second_press /\ exists c', progress_step second_press c'.
Proof.
  split; [exact second_press_reachable|].
  apply no_deadlock_without_nesting; [exact second_press_reachable | cbn; lia | left; discriminate].
Defined.

Lemma nested_toggle_deadlocks_witness : frozen deadlocked.
Proof. apply (proj2 nested_toggle_deadlocks). apply star_refl. Defined.

End Examples.

End Concurrency.
