(* ===== verification/Interleaving.v ===== *)
(** * The daemon's globals under interleaved handlers and threads

    [Controller.v] runs [toggle_recording] and [transcribe_and_paste] as
    atomic steps; [Concurrency.v] interleaves the lock operations but
    abstracts the globals to [state].  Here both at once: the main
    thread's nested [toggle_recording] frames (src/talktype_daemon.py,
    lines 123-139) run the real [Controller.toggle_recording] on the
    globals in their critical section; the PortAudio thread's
    [audio_callback] (lines 48-50) runs whenever the stream is active,
    without the lock; each transcription thread runs the [try]/[except]
    of [transcribe_and_paste] (lines 106-117) without the lock, then takes
    [state_lock] for its [finally] (lines 118-120).

    [run_fevent] is executable; [fstep] is its graph.  The theorem
    [interleaved_refines_spec] shows that every interleaving is accepted
    by the specification's machine [Controller.spec_step], the visible
    steps being the critical sections, the audio blocks and the
    [finally] that resets [state]: the lock makes the handlers atomic
    with respect to the controller's state. *)

From Stdlib Require Import List String ZArith QArith Lia.
From S2P Require Import Prelude Controller Concurrency.
Import ListNotations.

Module Interleaving.

Import Controller Concurrency.

(** ** Data *)

(** The main thread's frames, [state_lock], the transcription threads
    past their [try]/[except] (their buffer and where they are in the
    [finally]) and the daemon's globals, whose [threads] field holds the
    threads still in their [try]. *)
Record Fine : Type := mkF {
  fstack : list frame;
  flock : option owner;
  ffin : list (list Q * wpc);
  fg : Daemon
}.

Definition fine_initial : Fine := mkF [] None [] initial.

Inductive fevent : Type :=
| FSignal                      (** SIGUSR1: a new [toggle_recording] frame *)
| FAcquireLock                 (** the innermost frame takes [state_lock] *)
| FCriticalSection (io : DevIO) (** its critical section *)
| FReleaseLock                 (** it leaves the [with] block and returns *)
| FFrame (indata : list Q)     (** [audio_callback] *)
| FBody (i : nat)              (** thread [i] runs its [try]/[except] *)
| FTAcquire (j : nat)          (** thread [j] takes [state_lock] in its [finally] *)
| FIdle (j : nat)              (** it sets [state = State.IDLE] *)
| FTRelease (j : nat).         (** it releases the lock and ends *)

Definition replace_nth {A} (j : nat) (x : A) (l : list A) : list A :=
  firstn j l ++ x :: skipn (S j) l.

Section Steps.
Context `{Backend}.

(** [None]: the event cannot happen here.  The label is the event the
    specification sees, if any. *)
Definition run_fevent (ev : fevent) (f : Fine) : option (option aevent * Fine) :=
  let '(mkF st l fin g) := f in
  match ev with
  | FSignal => Some (None, mkF (FAcquire :: st) l fin g)
  | FAcquireLock =>
      match st, l with
      | FAcquire :: rest, None => Some (None, mkF (FCritical :: rest) (Some MainThread) fin g)
      | _, _ => None
      end
  | FCriticalSection io =>
      match st with
      | FCritical :: rest =>
          match toggle_recording io g with
          | (Ok _, g') => Some (Some AToggle, mkF (FRelease :: rest) l fin g')
          | (Exc _, _) => None
          end
      | _ => None
      end
  | FReleaseLock =>
      match st with
      | FRelease :: rest => Some (None, mkF rest None fin g)
      | _ => None
      end
  | FFrame x =>
      match stream g with
      | Some Active =>
          match audio_callback x g with
          | (Ok _, g') => Some (Some (AFrame x), mkF st l fin g')
          | (Exc _, _) => None
          end
      | _ => None
      end
  | FBody i =>
      match nth_error (threads g) i with
      | Some audio =>
          match transcribe_and_paste_body audio (set_threads (remove_nth i (threads g)) g) with
          | (Ok _, g') => Some (None, mkF st l (fin ++ [(audio, WAcquire)]) g')
          | (Exc _, _) => None
          end
      | None => None
      end
  | FTAcquire j =>
      match nth_error fin j, l with
      | Some (a, WAcquire), None =>
          Some (None, mkF st (Some WorkerThread) (replace_nth j (a, WCritical) fin) g)
      | _, _ => None
      end
  | FIdle j =>
      match nth_error fin j with
      | Some (a, WCritical) =>
          Some (Some ADone, mkF st l (replace_nth j (a, WRelease) fin) (set_state IDLE g))
      | _ => None
      end
  | FTRelease j =>
      match nth_error fin j with
      | Some (_, WRelease) => Some (None, mkF st None (remove_nth j fin) g)
      | _ => None
      end
  end.

Inductive fstep : Fine -> option aevent -> Fine -> Prop :=
| fstep_run ev f l f' : run_fevent ev f = Some (l, f') -> fstep f l f'.

(** Runs with the events the specification sees. *)
Inductive fsteps : Fine -> list aevent -> Fine -> Prop :=
| fsteps_refl f : fsteps f [] f
| fsteps_hidden f f1 es f2 : fstep f None f1 -> fsteps f1 es f2 -> fsteps f es f2
| fsteps_seen f e f1 es f2 : fstep f (Some e) f1 -> fsteps f1 es f2 -> fsteps f (e :: es) f2.

(** Replay a schedule. *)
Fixpoint fine_run (evs : list fevent) (f : Fine) : option (list aevent * Fine) :=
  match evs with
  | [] => Some ([], f)
  | ev :: rest =>
      match run_fevent ev f with
      | Some (l, f1) =>
          match fine_run rest f1 with
          | Some (es, f2) => Some (match l with Some e => e :: es | None => es end, f2)
          | None => None
          end
      | None => None
      end
  end.
End Steps.

(** What the specification sees: the controller state, the buffer being
    recorded, and the buffer of the live transcription thread, whether
    it is still in its [try] or already in its [finally]. *)
Definition absf (f : Fine) : AState :=
  abs (set_threads (threads (fg f) ++ map fst (ffin f)) (fg f)).

(** ** The invariant *)

Definition fin_holds (fin : list (list Q * wpc)) : bool :=
  existsb (fun p => match snd p with WCritical | WRelease => true | _ => false end) fin.

Definition flock_ok (f : Fine) : Prop :=
  match flock f with
  | None => holding (fstack f) = 0%nat /\ fin_holds (ffin f) = false
  | Some MainThread => holding (fstack f) = 1%nat /\ fin_holds (ffin f) = false
  | Some WorkerThread => holding (fstack f) = 0%nat /\ fin_holds (ffin f) = true
  end.

Definition fglob_ok (f : Fine) : Prop :=
  let g := fg f in
  match state g with
  | IDLE => stream g = None /\ threads g = []
            /\ (ffin f = [] \/ exists a, ffin f = [(a, WRelease)])
  | RECORDING => stream g = Some Active /\ threads g = [] /\ ffin f = []
  | TRANSCRIBING =>
      stream g = None
      /\ ((exists a, threads g = [a] /\ ffin f = [])
          \/ (threads g = [] /\ exists a, ffin f = [(a, WAcquire)] \/ ffin f = [(a, WCritical)]))
  end.

Definition finv (f : Fine) : Prop := flock_ok f /\ fglob_ok f.

(** A step keeps the specification's view, or makes the move the
    specification makes on its label. *)
Definition refines_step (f : Fine) (l : option aevent) (f' : Fine) : Prop :=
  match l with
  | None => absf f' = absf f
  | Some e => spec_step (absf f) e = Some (absf f')
  end.

Definition step_ok (f : Fine) (l : option aevent) (f' : Fine) : Prop :=
  finv f' /\ refines_step f l f'.

Lemma finv_initial : finv fine_initial.
Proof. split; cbn; auto. Qed.

Lemma holding_top_lock st l fin g :
  flock_ok (mkF st l fin g) -> (1 <= holding st)%nat ->
  l = Some MainThread /\ holding st = 1%nat /\ fin_holds fin = false.
Proof.
  unfold flock_ok; cbn. intros Hl Hh.
  destruct l as [[]|]; destruct Hl; try (exfalso; lia); auto.
Qed.

Section StepLemmas.
Context `{Backend}.

Lemma toggle_transcribing io g :
  state g = TRANSCRIBING -> toggle_recording io g = (Ok tt, g).
Proof. intros Hs. unfold toggle_recording. py_simpl. now rewrite Hs. Qed.

(** Pushing a frame, taking and releasing the lock in the main thread. *)
Lemma main_lock_ok st l fin g ev l' f' :
  finv (mkF st l fin g) -> run_fevent ev (mkF st l fin g) = Some (l', f') ->
  ev = FSignal \/ ev = FAcquireLock \/ ev = FReleaseLock -> step_ok (mkF st l fin g) l' f'.
Proof.
  intros [Hl Hg] Hrun Hev. unfold step_ok, finv, refines_step, absf.
  destruct Hev as [-> | [-> | ->]]; cbn in Hrun.
  - injection Hrun as <- <-. unfold flock_ok in *; cbn in *. now rewrite holding_cons.
  - destruct st as [|[] rest], l as [[]|]; try discriminate. injection Hrun as <- <-.
    unfold flock_ok in *; cbn in *. rewrite holding_cons in *. cbn in *. intuition lia.
  - destruct st as [|[] rest]; try discriminate. injection Hrun as <- <-.
    destruct (holding_top_lock (FRelease :: rest) l fin g Hl)
      as (-> & Hh & Hf); [rewrite holding_cons; cbn; lia|].
    unfold flock_ok in *; cbn in *. rewrite holding_cons in Hh. cbn in Hh. intuition lia.
Qed.

(** The critical section of a [toggle_recording] frame. *)
Lemma critical_ok st l fin g io l' f' :
  finv (mkF st l fin g) -> run_fevent (FCriticalSection io) (mkF st l fin g) = Some (l', f') ->
  step_ok (mkF st l fin g) l' f'.
Proof.
  intros [Hl Hg] Hrun. unfold run_fevent in Hrun. cbv beta iota in Hrun.
  destruct st as [|[] rest]; try discriminate.
  destruct (toggle_recording io g) as [[[]|e] g'] eqn:Ht; [|discriminate].
  injection Hrun as <- <-.
  destruct (holding_top_lock _ _ _ _ Hl) as (-> & Hh & Hf); [rewrite holding_cons; cbn; lia|].
  assert (Hh' : holding (FRelease :: rest) = 1%nat) by (rewrite holding_cons in *; exact Hh).
  unfold step_ok, finv, flock_ok, fglob_ok, refines_step, absf in *.
  cbn [flock fstack ffin fg] in *. unfold abs. simpl_daemon.
  destruct (state g) eqn:Hs.
  - destruct Hg as (Hst & Hth & [-> | [a ->]]); [|cbn in Hf; discriminate].
    assert (Hi : inv g) by (unfold inv; rewrite Hs; auto).
    destruct (toggle_step_cases io g g' Hi Ht) as [(_ & ->)|[(Hs' & _)|(Hs' & _)]];
      [|congruence|congruence].
    cbn. rewrite Hth. auto.
  - destruct Hg as (Hst & Hth & ->).
    assert (Hi : inv g) by (unfold inv; rewrite Hs; auto).
    destruct (toggle_step_cases io g g' Hi Ht) as [(Hs' & _)|[(_ & ->)|(Hs' & _)]];
      [congruence| |congruence].
    cbn. rewrite Hth. cbn. repeat split; eauto.
  - rewrite (toggle_transcribing io g Hs) in Ht. injection Ht as <-.
    rewrite Hs. auto.
Qed.

(** An audio block from the PortAudio thread. *)
Lemma frame_ok st l fin g x l' f' :
  finv (mkF st l fin g) -> run_fevent (FFrame x) (mkF st l fin g) = Some (l', f') ->
  step_ok (mkF st l fin g) l' f'.
Proof.
  intros [Hl Hg] Hrun. unfold run_fevent in Hrun. cbv beta iota in Hrun.
  destruct (stream g) as [[|]|] eqn:Hst; try discriminate.
  unfold audio_callback, py_modify in Hrun. injection Hrun as <- <-.
  unfold step_ok, finv, flock_ok, fglob_ok, refines_step, absf, abs in *.
  cbn [flock fstack ffin fg] in *. simpl_daemon.
  destruct (state g) eqn:Hs;
    [destruct Hg as [Hst' _]; congruence | | destruct Hg as [Hst' _]; congruence].
  destruct Hg as (_ & Hth & ->). rewrite Hth. cbn. rewrite concat_app. cbn. rewrite app_nil_r. auto.
Qed.

(** A transcription thread runs the [try]/[except] of
    [transcribe_and_paste] without the lock. *)
Lemma body_ok st l fin g i l' f' :
  finv (mkF st l fin g) -> run_fevent (FBody i) (mkF st l fin g) = Some (l', f') ->
  step_ok (mkF st l fin g) l' f'.
Proof.
  intros [Hl Hg] Hrun. unfold run_fevent in Hrun. cbv beta iota in Hrun.
  destruct (nth_error (threads g) i) as [audio|] eqn:Hn; [|discriminate].
  destruct (transcribe_and_paste_body audio (set_threads (remove_nth i (threads g)) g))
    as [[[]|e] g1] eqn:Hb; [|discriminate].
  injection Hrun as <- <-.
  unfold step_ok, finv, flock_ok, fglob_ok, refines_step, absf, abs in *.
  cbn [flock fstack ffin fg] in *.
  destruct (state g) eqn:Hs;
    [destruct Hg as (_ & Hth & _) | destruct Hg as (_ & Hth & _)
    | destruct Hg as (Hst & [(a & Hth & ->) | (Hth & _)])];
    rewrite Hth in Hn; try (destruct i; discriminate).
  destruct i as [|i]; [|destruct i; discriminate]. injection Hn as <-.
  rewrite Hth in Hb. cbn in Hb.
  destruct (transcribe_and_paste_body_total a (set_threads [] g))
    as (d1 & Hb' & Hs1 & Hst1 & Hth1 & _).
  rewrite Hb in Hb'. injection Hb' as <-. simpl_daemon.
  rewrite Hs1, Hs, Hst1, Hth1, Hst, Hth. cbn. split; [split; [exact Hl|] | reflexivity].
  split; [reflexivity|]. right. eauto.
Qed.

Lemma fin_shape f :
  fglob_ok f -> ffin f = [] \/ exists a p, ffin f = [(a, p)].
Proof.
  unfold fglob_ok. destruct (state (fg f)).
  - intros (_ & _ & [-> | [a ->]]); eauto.
  - intros (_ & _ & ->). auto.
  - intros (_ & [(a & _ & ->) | (_ & a & [-> | ->])]); eauto.
Qed.

(** A transcription thread's [finally]: lock, [state = State.IDLE],
    unlock. *)
Lemma finally_ok st l fin g ev l' f' :
  finv (mkF st l fin g) -> run_fevent ev (mkF st l fin g) = Some (l', f') ->
  (exists j, ev = FTAcquire j \/ ev = FIdle j \/ ev = FTRelease j) ->
  step_ok (mkF st l fin g) l' f'.
Proof.
  intros [Hl Hg] Hrun (j & Hev).
  destruct (fin_shape _ Hg) as [Hfin | (a & p & Hfin)]; cbn in Hfin; subst fin.
  { destruct Hev as [-> | [-> | ->]]; cbn in Hrun; destruct j; discriminate. }
  destruct j as [|j]; [|destruct Hev as [-> | [-> | ->]]; cbn in Hrun; destruct j; discriminate].
  unfold step_ok, finv, flock_ok, fglob_ok, refines_step, absf, abs in *.
  cbn [flock fstack ffin fg] in *.
  destruct Hev as [-> | [-> | ->]]; cbn in Hrun;
    destruct p, l as [[]|]; try discriminate; injection Hrun as <- <-;
    cbn [flock fstack ffin fg fin_holds existsb snd] in *; simpl_daemon;
    destruct (state g) eqn:Hs; cbn in *;
    repeat match goal with
           | H : _ /\ _ |- _ => destruct H
           | H : _ \/ _ |- _ => destruct H
           | H : exists _, _ |- _ => destruct H
           end;
    try discriminate; try congruence; repeat split; auto; try lia; eauto 6.
Qed.

Lemma fstep_ok f l f' : finv f -> fstep f l f' -> step_ok f l f'.
Proof.
  intros Hi Hs. destruct Hs as [ev f0 l0 f1 Hrun]. destruct f0 as [st lk fin g].
  destruct ev as [| |io| |x|i|j|j|j].
  - apply (main_lock_ok _ _ _ _ _ _ _ Hi Hrun). auto.
  - apply (main_lock_ok _ _ _ _ _ _ _ Hi Hrun). auto.
  - exact (critical_ok _ _ _ _ _ _ _ Hi Hrun).
  - apply (main_lock_ok _ _ _ _ _ _ _ Hi Hrun). auto.
  - exact (frame_ok _ _ _ _ _ _ _ Hi Hrun).
  - exact (body_ok _ _ _ _ _ _ _ Hi Hrun).
  - apply (finally_ok _ _ _ _ _ _ _ Hi Hrun). eauto.
  - apply (finally_ok _ _ _ _ _ _ _ Hi Hrun). eauto.
  - apply (finally_ok _ _ _ _ _ _ _ Hi Hrun). eauto.
Qed.

Lemma fsteps_ok f es f' :
  finv f -> fsteps f es f' -> finv f' /\ spec_run es (absf f) = Some (absf f').
Proof.
  intros Hi Hs. induction Hs as [f|f f1 es f2 Hst Hs IH|f e f1 es f2 Hst Hs IH].
  - auto.
  - destruct (fstep_ok _ _ _ Hi Hst) as [Hi1 Ha]. cbn in Ha. rewrite <- Ha. auto.
  - destruct (fstep_ok _ _ _ Hi Hst) as [Hi1 Ha]. cbn in Ha.
    cbn [spec_run]. rewrite Ha. auto.
Qed.

Lemma fine_run_sound evs f es f' : fine_run evs f = Some (es, f') -> fsteps f es f'.
Proof.
  revert f es; induction evs as [|ev rest IH]; intros f es Hr; cbn in Hr.
  - injection Hr as <- <-. constructor.
  - destruct (run_fevent ev f) as [[l f1]|] eqn:E; [|discriminate].
    destruct (fine_run rest f1) as [[es1 f2]|] eqn:E1; [|discriminate].
    injection Hr as <- <-.
    destruct l; [eapply fsteps_seen | eapply fsteps_hidden]; eauto using fstep_run.
Qed.

Lemma fine_reachable_inv es f : fsteps fine_initial es f -> finv f.
Proof. intros Hs. exact (proj1 (fsteps_ok _ _ _ finv_initial Hs)). Qed.

(** C26: Refinement: under every interleaving of nested SIGUSR1 handlers
    (each running the real [toggle_recording] in its critical section),
    audio blocks, and transcription threads (their [try]/[except]
    without the lock, their [finally] under it), the events the
    specification sees (critical sections as toggles, audio blocks, and
    the reset to IDLE as the end of transcription) are accepted by
    [spec_step], which ends in the abstraction of the daemon's globals. *)
Theorem interleaved_refines_spec es f :
  fsteps fine_initial es f -> spec_run es AIdle = Some (absf f).
Proof. intros Hs. exact (proj2 (fsteps_ok _ _ _ finv_initial Hs)). Qed.

(** C27: Under every interleaving, at most one transcription thread is
    alive (in its [try] or its [finally]), the stream is active exactly
    while [state] is RECORDING, and the lock is held by at most one
    handler frame, never together with a transcription thread. *)
Theorem interleaved_single_transcription es f :
  fsteps fine_initial es f ->
  (List.length (threads (fg f)) + List.length (ffin f) <= 1)%nat
  /\ (stream (fg f) = Some Active <-> state (fg f) = RECORDING)
  /\ (holding (fstack f) <= 1)%nat
  /\ (holding (fstack f) = 0%nat \/ fin_holds (ffin f) = false).
Proof.
  intros Hs. destruct (fine_reachable_inv es f Hs) as [Hl Hg].
  split; [|split]; [| |unfold flock_ok in Hl; destruct (flock f) as [[]|]; destruct Hl; split; auto; lia].
  - unfold fglob_ok in Hg. destruct (state (fg f));
      repeat match goal with
             | H : _ /\ _ |- _ => destruct H
             | H : _ \/ _ |- _ => destruct H
             | H : exists _, _ |- _ => destruct H
             end;
      repeat match goal with H : ?x = _ |- context [?x] => rewrite H end; cbn; lia.
  - unfold fglob_ok in Hg. destruct (state (fg f)); destruct Hg as [Hst _];
      rewrite Hst; split; congruence.
Qed.

End StepLemmas.

Module Examples.
#[local] Existing Instance Controller.Examples.demo_backend.
Local Open Scope Q_scope.

(** Start, two audio blocks, stop; while the transcription thread is
    past its [try] and waits for the lock, a third press is ignored;
    then the thread's [finally]. *)
Definition schedule : list fevent :=
  [FSignal; FAcquireLock; FCriticalSection dev_ok; FReleaseLock;
   FFrame [1; 2]; FFrame [3];
   FSignal; FAcquireLock; FCriticalSection dev_ok; FReleaseLock;
   FBody 0;
   FSignal; FAcquireLock; FCriticalSection dev_ok; FReleaseLock;
   FTAcquire 0; FIdle 0; FTRelease 0].

Definition seen : list aevent :=
  [AToggle; AFrame [1; 2]; AFrame [3]; AToggle; AToggle; ADone].

Lemma interleaved_refines_spec_witness :
  exists f, fine_run schedule fine_initial = Some (seen, f)
            /\ absf f = AIdle /\ spec_run seen AIdle = Some (absf f).
Proof.
  destruct (fine_run schedule fine_initial) as [[es f]|] eqn:E;
    vm_compute in E; [|discriminate].
  injection E as Hes Hf. subst es f. eexists.
  split; [vm_compute; reflexivity|]. split; [vm_compute; reflexivity|].
  apply interleaved_refines_spec. apply (fine_run_sound schedule).
  vm_compute. reflexivity.
Defined.

Lemma interleaved_single_transcription_witness :
  exists f, fine_run (firstn 11 schedule) fine_initial = Some (firstn 4 seen, f)
            /\ (List.length (threads (fg f)) + List.length (ffin f) <= 1)%nat
            /\ ffin f <> [].
Proof.
  destruct (fine_run (firstn 11 schedule) fine_initial) as [[es f]|] eqn:E;
    vm_compute in E; [|discriminate].
  injection E as Hes Hf. subst es f. eexists.
  split; [vm_compute; reflexivity|]. split; [|discriminate].
  eapply proj1. apply (interleaved_single_transcription (firstn 4 seen)).
  apply (fine_run_sound (firstn 11 schedule)). vm_compute. reflexivity.
Defined.

End Examples.

End Interleaving.
