(* ===== verification/Diagnostics.v ===== *)
(** * The diagnostic scripts: src/test_mic.py and src/test_keyboard.py

    [test_mic.py] records [int(DURATION * SAMPLE_RATE)] samples with
    [sd.rec], prints the maximum absolute amplitude, the mean absolute
    amplitude and the RMS energy of the recording, and gives one of three
    verdicts from the maximum alone (lines 33-38).  Module [Mic] holds the
    statistics on exact rationals (the RMS is kept as its square, the mean
    of squares, as [Gate.mean_sq] keeps it), the verdict, and how the
    verdict relates to the daemon's speech gate of [SpeechGate.v].

    [test_keyboard.py] prints every key press and release that pynput's
    listener reports and stops the listener when [on_release] returns
    [False], which it does for the Esc key (lines 12-16).  Module
    [Keyboard] runs the two callbacks over a sequence of key events. *)

From Stdlib Require Import List String ZArith QArith Qabs Qminmax Lra Lia Psatz.
From S2P Require Import Prelude SpeechGate.
Import ListNotations.

Module Mic.

Local Open Scope Q_scope.

(** Lines 7-8: [SAMPLE_RATE = 16000], [DURATION = 3]. *)
Definition SAMPLE_RATE : Z := 16000.
Definition DURATION : Z := 3.

(** Line 20: [int(DURATION * SAMPLE_RATE)] frames are recorded. *)
Definition frames : nat := Z.to_nat (DURATION * SAMPLE_RATE).

(** [np.max(np.abs(audio))]: numpy raises [ValueError] on an empty array. *)
Definition np_max_abs (audio : list Q) : outcome Q :=
  match audio with
  | [] => Exc ValueError
  | x :: rest => Ok (fold_right (fun y m => Qmax (Qabs y) m) (Qabs x) rest)
  end.

(** [np.abs(audio)] summed *)
Definition sum_abs (audio : list Q) : Q :=
  fold_right (fun y acc => Qabs y + acc) 0 audio.

(** [np.mean(np.abs(audio))] for a non-empty recording *)
Definition mean_abs (audio : list Q) : Q :=
  sum_abs audio / inject_Z (Z.of_nat (List.length audio)).

Inductive verdict : Type :=
| VeryLow    (** "Very low audio levels - microphone may not be working!" *)
| Low        (** "Low audio levels - speak louder or check microphone!" *)
| Captured.  (** "Audio captured successfully!" *)

(** Lines 33-38, on the maximum amplitude [m]. *)
Definition classify (m : Q) : verdict :=
  if negb (Qle_bool (1 # 1000) m) then VeryLow
  else if negb (Qle_bool (1 # 100) m) then Low
  else Captured.

(** What the script prints after the recording: lines 29-31 and the
    verdict.  [rms_sq] is the square of the printed RMS energy. *)
Record report : Type := mkReport {
  max_amp : Q;
  mean_amp : Q;
  rms_sq : Q;
  level : verdict
}.

(** Lines 26-38 on the recording [audio] that [sd.rec] returned. *)
Definition test_mic (audio : list Q) : outcome report :=
  match np_max_abs audio with
  | Exc e => Exc e
  | Ok m => Ok (mkReport m (mean_abs audio) (Gate.mean_sq audio) (classify m))
  end.

(** ** Lemmas *)

Lemma Qabs_sq y : Qabs y * Qabs y == y * y.
Proof. apply Qabs_case; intros; ring. Qed.

Lemma Qsq_nonneg (x : Q) : 0 <= x * x.
Proof.
  destruct (Qlt_le_dec x 0); [|apply Qmult_le_0_compat; assumption].
  setoid_replace (x * x) with ((- x) * (- x)) by ring. apply Qmult_le_0_compat; lra.
Qed.

Lemma sum_abs_nonneg audio : 0 <= sum_abs audio.
Proof.
  induction audio as [|y rest IH]; cbn [sum_abs fold_right]; [lra|].
  fold (sum_abs rest). pose proof (Qabs_nonneg y). lra.
Qed.

Lemma max_abs_bound x rest y :
  In y (x :: rest) -> Qabs y <= fold_right (fun y m => Qmax (Qabs y) m) (Qabs x) rest.
Proof.
  intros Hin. induction rest as [|z rest IH]; cbn [fold_right].
  - destruct Hin as [<-|[]]. lra.
  - destruct Hin as [<-|[<-|Hin]].
    + eapply Qle_trans; [apply IH; left; reflexivity | apply Q.le_max_r].
    + apply Q.le_max_l.
    + eapply Qle_trans; [apply IH; right; exact Hin | apply Q.le_max_r].
Qed.

(** Every square is at most the square of the maximum amplitude. *)
Lemma sum_sq_le_max audio m :
  (forall y, In y audio -> Qabs y <= m) ->
  Gate.sum_sq audio <= inject_Z (Z.of_nat (List.length audio)) * (m * m).
Proof.
  induction audio as [|y rest IH]; intros Hm; cbn [Gate.sum_sq fold_right List.length].
  - unfold Qle; cbn. lia.
  - fold (Gate.sum_sq rest).
    rewrite Nat2Z.inj_succ, <- Z.add_1_l, inject_Z_plus.
    pose proof (IH (fun z Hz => Hm z (or_intror Hz))) as IH'.
    pose proof (Hm y (or_introl eq_refl)) as Hy.
    pose proof (Qabs_nonneg y). pose proof (Qabs_sq y).
    assert (Qabs y * Qabs y <= m * m) by nra.
    change (inject_Z 1) with 1. nra.
Qed.

(** The step of Cauchy-Schwarz: [2 a |y| <= y * y + a * a] summed. *)
Lemma cross_le a audio :
  2 * a * sum_abs audio
  <= Gate.sum_sq audio + inject_Z (Z.of_nat (List.length audio)) * (a * a).
Proof.
  induction audio as [|y rest IH]; cbn [sum_abs Gate.sum_sq fold_right List.length].
  - unfold Qle; cbn. lia.
  - fold (sum_abs rest) (Gate.sum_sq rest).
    rewrite Nat2Z.inj_succ, <- Z.add_1_l, inject_Z_plus. change (inject_Z 1) with 1.
    pose proof (Qabs_sq y). pose proof (Qsq_nonneg (Qabs y - a)). nra.
Qed.

(** Cauchy-Schwarz: [(sum |y|)^2 <= n * sum y^2]. *)
Lemma sum_abs_sq_le audio :
  sum_abs audio * sum_abs audio
  <= inject_Z (Z.of_nat (List.length audio)) * Gate.sum_sq audio.
Proof.
  induction audio as [|y rest IH]; cbn [sum_abs Gate.sum_sq fold_right List.length].
  - unfold Qle; cbn. lia.
  - fold (sum_abs rest) (Gate.sum_sq rest).
    rewrite Nat2Z.inj_succ, <- Z.add_1_l, inject_Z_plus. change (inject_Z 1) with 1.
    pose proof (Qabs_sq y) as Hy. pose proof (cross_le (Qabs y) rest) as Hc. rewrite Hy in Hc.
    pose proof (Gate.sum_sq_nonneg rest). pose proof (Qabs_nonneg y). nra.
Qed.

Lemma test_mic_ok audio r :
  test_mic audio = Ok r ->
  exists x rest, audio = x :: rest
    /\ r = mkReport (fold_right (fun y m => Qmax (Qabs y) m) (Qabs x) rest)
                    (mean_abs audio) (Gate.mean_sq audio)
                    (classify (fold_right (fun y m => Qmax (Qabs y) m) (Qabs x) rest)).
Proof.
  unfold test_mic, np_max_abs. destruct audio as [|x rest]; [discriminate|].
  intros H. injection H as <-. eauto.
Qed.

Lemma length_pos_Q {A} (x : A) rest :
  0 < inject_Z (Z.of_nat (List.length (x :: rest))).
Proof. unfold Qlt; cbn. lia. Qed.

(** The mean of squares is at most the square of the maximum. *)
Lemma mean_sq_le_max x rest :
  Gate.mean_sq (x :: rest)
  <= fold_right (fun y m => Qmax (Qabs y) m) (Qabs x) rest
     * fold_right (fun y m => Qmax (Qabs y) m) (Qabs x) rest.
Proof.
  unfold Gate.mean_sq. apply Qle_shift_div_r; [apply length_pos_Q|].
  rewrite Qmult_comm. apply sum_sq_le_max. intros y Hy. now apply max_abs_bound.
Qed.

Lemma classify_VeryLow m : classify m = VeryLow -> m < 1 # 1000.
Proof.
  unfold classify. destruct (Qle_bool (1 # 1000) m) eqn:E.
  - destruct (Qle_bool (1 # 100) m); discriminate.
  - intros _. now apply Gate.Qle_bool_false.
Qed.

(** [sum(c ** 2 for n copies)] *)
Lemma sum_sq_repeat c n :
  Gate.sum_sq (repeat c n) == inject_Z (Z.of_nat n) * (c * c).
Proof.
  induction n as [|n IH]; cbn [repeat Gate.sum_sq fold_right].
  - reflexivity.
  - fold (Gate.sum_sq (repeat c n)). rewrite IH, Nat2Z.inj_succ, <- Z.add_1_l, inject_Z_plus.
    change (inject_Z 1) with 1. ring.
Qed.

Lemma mean_sq_repeat c n :
  Gate.mean_sq (repeat c (S n)) == c * c.
Proof.
  unfold Gate.mean_sq. rewrite sum_sq_repeat, repeat_length.
  field. unfold Qeq; cbn. lia.
Qed.

Lemma max_abs_repeat c n :
  fold_right (fun y m => Qmax (Qabs y) m) (Qabs c) (repeat c n) = Qabs c.
Proof.
  induction n as [|n IH]; cbn [repeat fold_right]; [reflexivity|].
  rewrite IH. unfold Qmax, GenericMinMax.gmax. now destruct (Qabs c ?= Qabs c).
Qed.

(** C31: The three figures [test_mic.py] prints are consistent: the
    mean absolute amplitude is at most the RMS energy, which is at most
    the maximum absolute amplitude (squares compared, as all three are
    non-negative). *)
Theorem test_mic_stats_ordered audio r :
  test_mic audio = Ok r ->
  0 <= mean_amp r /\ mean_amp r * mean_amp r <= rms_sq r /\ rms_sq r <= max_amp r * max_amp r.
Proof.
  intros H. destruct (test_mic_ok audio r H) as (x & rest & -> & ->). cbn.
  pose proof (length_pos_Q x rest) as Hn. unfold mean_abs.
  split; [apply Qle_shift_div_l; [exact Hn | rewrite Qmult_0_l; apply sum_abs_nonneg]|].
  split; [|apply mean_sq_le_max].
  unfold Gate.mean_sq. apply Qle_shift_div_l; [exact Hn|].
  setoid_replace (sum_abs (x :: rest) / inject_Z (Z.of_nat (List.length (x :: rest)))
                  * (sum_abs (x :: rest) / inject_Z (Z.of_nat (List.length (x :: rest))))
                  * inject_Z (Z.of_nat (List.length (x :: rest))))
    with (sum_abs (x :: rest) * sum_abs (x :: rest)
          / inject_Z (Z.of_nat (List.length (x :: rest))))
    by (field; unfold Qeq; cbn; lia).
  apply Qle_shift_div_r; [exact Hn|]. eapply Qle_trans; [apply sum_abs_sq_le|].
  rewrite (Qmult_comm (inject_Z _)). apply Qle_refl.
Qed.

(** C32: A recording that [test_mic.py] reports as "Very low audio
    levels" (maximum below 0.001) is always discarded by the daemon's
    speech gate: its RMS energy is below 0.001, under the 0.005
    threshold of [has_speech]. *)
Theorem very_low_level_rejected_by_gate audio r :
  test_mic audio = Ok r -> level r = VeryLow -> Gate.rejects audio = true.
Proof.
  intros H Hv. destruct (test_mic_ok audio r H) as (x & rest & -> & ->).
  cbn in Hv. apply classify_VeryLow in Hv.
  pose proof (mean_sq_le_max x rest) as Hm.
  pose proof (Qabs_nonneg x). pose proof (max_abs_bound x rest x (or_introl eq_refl)).
  unfold Gate.rejects, Gate.has_speech. rewrite Bool.orb_true_iff. right.
  change (Qle_bool 0 Gate.SPEECH_THRESHOLD) with true. cbv iota beta.
  rewrite Bool.negb_involutive, Qle_bool_iff.
  unfold Gate.SPEECH_THRESHOLD. nra.
Qed.

Lemma frames_succ : frames = S (Z.to_nat 47999).
Proof. reflexivity. Qed.

Lemma too_short_frames (c : Q) : Gate.too_short (repeat c frames) = false.
Proof. unfold Gate.too_short. rewrite repeat_length. vm_compute. reflexivity. Qed.

Lemma classify_Low m : 1 # 1000 <= m -> m < 1 # 100 -> classify m = Low.
Proof.
  intros H1 H2. unfold classify.
  apply Qle_bool_iff in H1. rewrite H1. cbn.
  now rewrite (proj2 (Gate.Qle_bool_false _ _) H2).
Qed.

Lemma test_mic_repeat c n :
  test_mic (repeat c (S n))
  = Ok (mkReport (Qabs c) (mean_abs (repeat c (S n))) (Gate.mean_sq (repeat c (S n)))
                 (classify (Qabs c))).
Proof. unfold test_mic, np_max_abs. cbn [repeat]. now rewrite max_abs_repeat. Qed.

(** C33: The verdict does not predict the daemon: a steady recording of
    amplitude between 0.005 and 0.01 is reported as "Low audio levels -
    speak louder", yet the daemon's gate passes it to Whisper. *)
Theorem low_level_yet_transcribed c :
  1 # 200 < c -> c < 1 # 100 ->
  test_mic (repeat c frames)
  = Ok (mkReport (Qabs c) (mean_abs (repeat c frames)) (Gate.mean_sq (repeat c frames)) Low)
  /\ Gate.rejects (repeat c frames) = false.
Proof.
  intros H1 H2. rewrite frames_succ, test_mic_repeat.
  assert (Hc : Qabs c == c) by (apply Qabs_pos; lra).
  rewrite classify_Low by (rewrite Hc; lra). split; [reflexivity|].
  unfold Gate.rejects. rewrite <- frames_succ, too_short_frames. cbn [orb].
  rewrite frames_succ. unfold Gate.has_speech. cbn [repeat].
  change (Qle_bool 0 Gate.SPEECH_THRESHOLD) with true. cbv iota beta.
  rewrite Bool.negb_false_iff, Bool.negb_true_iff. apply (proj2 (Gate.Qle_bool_false _ _)).
  change (c :: repeat c (Z.to_nat 47999)) with (repeat c (S (Z.to_nat 47999))).
  rewrite mean_sq_repeat. unfold Gate.SPEECH_THRESHOLD. nra.
Qed.

(** A 3 s recording: one click of amplitude [a], then silence. *)
Definition click (a : Q) : list Q := a :: repeat 0 (frames - 1).

Lemma click_tail : (frames - 1 = Z.to_nat 47999)%nat.
Proof. reflexivity. Qed.

Lemma max_abs_zeros m n :
  0 < m -> fold_right (fun y m => Qmax (Qabs y) m) m (repeat 0 n) = m.
Proof.
  intros Hm. induction n as [|n IH]; cbn [repeat fold_right]; [reflexivity|].
  rewrite IH. change (Qabs 0) with 0. unfold Qmax, GenericMinMax.gmax.
  now rewrite (proj1 (Qlt_alt _ _) Hm).
Qed.

Lemma sum_sq_click a n : Gate.sum_sq (a :: repeat 0 n) == a * a.
Proof.
  cbn [Gate.sum_sq fold_right]. fold (Gate.sum_sq (repeat 0 n)).
  rewrite sum_sq_repeat. ring.
Qed.

Lemma classify_Captured m : 1 # 100 <= m -> classify m = Captured.
Proof.
  intros H. unfold classify.
  assert (H' : 1 # 1000 <= m) by (eapply Qle_trans; [|exact H]; unfold Qle; cbn; lia).
  apply Qle_bool_iff in H, H'. now rewrite H, H'.
Qed.

(** C34: Conversely, the verdict "Audio captured successfully!" does
    not mean the daemon would transcribe the take: for every amplitude
    [a] with [0.01 <= |a| <= 1], a 3 s recording holding one click of
    amplitude [a] and silence is reported as captured, yet its RMS energy
    is at most [1 / sqrt 48000], about 0.0046, and the daemon's gate
    rejects it: the diagnostic judges the peak, the daemon the energy. *)
Theorem click_captured_yet_rejected a :
  1 # 100 <= Qabs a <= 1 ->
  (exists r, test_mic (click a) = Ok r /\ level r = Captured)
  /\ Gate.rejects (click a) = true.
Proof.
  intros [H1 H2].
  assert (Hpos : 0 < Qabs a) by (eapply Qlt_le_trans; [|exact H1]; reflexivity).
  split.
  - eexists. split.
    + unfold test_mic, np_max_abs, click. rewrite max_abs_zeros by exact Hpos. reflexivity.
    + now apply classify_Captured.
  - unfold Gate.rejects. apply Bool.orb_true_iff. right.
    unfold Gate.has_speech, click. change (Qle_bool 0 Gate.SPEECH_THRESHOLD) with true.
    cbv iota beta. rewrite Bool.negb_involutive, Qle_bool_iff.
    unfold Gate.mean_sq. apply Qle_shift_div_r; [apply length_pos_Q|].
    rewrite sum_sq_click, click_tail. cbn [List.length]. rewrite repeat_length.
    change (inject_Z (Z.of_nat (S (Z.to_nat 47999)))) with (inject_Z 48000).
    assert (Ha : Qabs a * Qabs a <= 1 * 1)
      by (apply Qmult_le_compat_nonneg; split; auto using Qabs_nonneg).
    rewrite Qabs_sq in Ha. unfold Gate.SPEECH_THRESHOLD. eapply Qle_trans; [exact Ha | vm_compute; discriminate].
Qed.

Module Examples.

Definition short_take : list Q := [1 # 2; - (1 # 4); 0].
Definition dead_mic : list Q := [1 # 2000; - (1 # 4000); 0].

Lemma test_mic_stats_ordered_witness :
  exists r, test_mic short_take = Ok r
            /\ mean_amp r * mean_amp r <= rms_sq r /\ rms_sq r <= max_amp r * max_amp r.
Proof.
  eexists. split; [reflexivity|].
  apply (test_mic_stats_ordered short_take). reflexivity.
Defined.

Lemma very_low_level_rejected_by_gate_witness :
  exists r, test_mic dead_mic = Ok r /\ level r = VeryLow /\ Gate.rejects dead_mic = true.
Proof.
  eexists. split; [reflexivity|]. split; [reflexivity|].
  apply (very_low_level_rejected_by_gate dead_mic _ eq_refl). reflexivity.
Defined.

Lemma low_level_yet_transcribed_witness :
  1 # 200 < 1 # 125 /\ 1 # 125 < 1 # 100 /\ Gate.rejects (repeat (1 # 125) frames) = false.
Proof.
  split; [vm_compute; reflexivity | split; [vm_compute; reflexivity|]].
  apply (low_level_yet_transcribed (1 # 125)); vm_compute; reflexivity.
Defined.

Lemma click_captured_yet_rejected_witness :
  1 # 100 <= Qabs (1 # 2) <= 1 /\ Gate.rejects (click (1 # 2)) = true.
Proof.
  split; [split; vm_compute; discriminate|].
  apply (click_captured_yet_rejected (1 # 2)). split; vm_compute; discriminate.
Defined.

End Examples.

End Mic.

Module Keyboard.

(** [keyboard.Key.esc] and every other key pynput reports. *)
Inductive key : Type := Esc | Other (name : string).

Definition is_esc (k : key) : bool := match k with Esc => true | Other _ => false end.

(** What the listener thread reports, in order. *)
Inductive kevent : Type := Press (k : key) | Release (k : key).

(** The lines the script prints. *)
Inductive line : Type :=
| Banner (n : nat)       (** the four lines of lines 18-21 *)
| KeyPressed (k : key)   (** [on_press], line 8 *)
| KeyReleased (k : key)  (** [on_release], line 13 *)
| EscExiting.            (** line 15 *)

(** [on_press]: prints the key; the listener continues. *)
Definition on_press (k : key) : list line * bool := ([KeyPressed k], true).

(** [on_release]: prints the key; for Esc prints the exit line and
    returns [False], which stops the listener. *)
Definition on_release (k : key) : list line * bool :=
  if is_esc k then ([KeyReleased k; EscExiting], false) else ([KeyReleased k], true).

(** The listener delivers events to the callbacks until one returns
    [False]; the result is the printed lines and whether the listener
    stopped (so that [listener.join()] returns and the script ends). *)
Fixpoint listen (evs : list kevent) : list line * bool :=
  match evs with
  | [] => ([], false)
  | ev :: rest =>
      let '(out, go) := match ev with Press k => on_press k | Release k => on_release k end in
      if go then let '(out', stopped) := listen rest in (out ++ out', stopped)
      else (out, true)
  end.

(** The whole script. *)
Definition test_keyboard (evs : list kevent) : list line * bool :=
  let '(out, stopped) := listen evs in
  (map Banner [0; 1; 2; 3]%nat ++ out, stopped).

Definition echo (ev : kevent) : line :=
  match ev with Press k => KeyPressed k | Release k => KeyReleased k end.

Definition is_esc_release (ev : kevent) : bool :=
  match ev with Release k => is_esc k | Press _ => false end.

Lemma listen_no_esc evs :
  existsb is_esc_release evs = false -> listen evs = (map echo evs, false).
Proof.
  induction evs as [|[k|k] rest IH]; cbn; [reflexivity| |];
    intros H; [rewrite (IH H); reflexivity|].
  unfold on_release. destruct (is_esc k); [discriminate|]. cbn in H.
  rewrite (IH H). reflexivity.
Qed.

Lemma listen_esc pre post :
  existsb is_esc_release pre = false ->
  listen (pre ++ Release Esc :: post) = (map echo pre ++ [KeyReleased Esc; EscExiting], true).
Proof.
  induction pre as [|[k|k] rest IH]; cbn; [reflexivity| |];
    intros H; [rewrite (IH H); reflexivity|].
  unfold on_release. destruct (is_esc k); [discriminate|]. cbn in H.
  rewrite (IH H). reflexivity.
Qed.

(** C35: [test_keyboard.py] echoes every key event in order up to and
    including the first release of Esc, then prints the exit line and
    ends; the events after it are never echoed, and a press of Esc alone
    does not end it.  Without a release of Esc it echoes every event and
    keeps listening. *)
Theorem keyboard_stops_at_first_esc_release pre post :
  existsb is_esc_release pre = false ->
  test_keyboard (pre ++ Release Esc :: post)
  = (map Banner [0; 1; 2; 3]%nat ++ map echo pre ++ [KeyReleased Esc; EscExiting], true)
  /\ test_keyboard pre = (map Banner [0; 1; 2; 3]%nat ++ map echo pre, false).
Proof.
  intros H. unfold test_keyboard. now rewrite (listen_no_esc pre H), (listen_esc pre post H).
Qed.

Module Examples.

Definition session : list kevent :=
  [Press (Other "a"); Release (Other "a"); Press Esc; Release Esc; Press (Other "b")].

Lemma keyboard_stops_at_first_esc_release_witness :
  existsb is_esc_release [Press (Other "a"); Release (Other "a"); Press Esc] = false
  /\ test_keyboard session
     = (map Banner [0; 1; 2; 3]%nat
        ++ [KeyPressed (Other "a"); KeyReleased (Other "a"); KeyPressed Esc;
            KeyReleased Esc; EscExiting], true).
Proof.
  split; [reflexivity|].
  apply (keyboard_stops_at_first_esc_release
           [Press (Other "a"); Release (Other "a"); Press Esc] [Press (Other "b")]).
  reflexivity.
Defined.

End Examples.

End Keyboard.
